(** * Category/task planner bot: dispatcher, conversation state and store

    A shallow embedding of [src/main.py]: the two SQLite tables, the
    aiogram finite-state context, the keyboard factory and the eleven
    handlers, followed by the properties of the specification that can be
    settled on this model.

    Conventions.
    - A Python [str] is a sequence of Unicode code points, so it is modelled
      as [list Z]; slicing such as [text[2:]] counts code points.
    - A value bound to an SQL parameter may be Python's [None], which SQLite
      stores as NULL: nullable columns are [option].
    - Every [await] on the messaging platform may raise; the outcome of the
      [k]-th outbound call of one handler invocation is given by an oracle
      [net k]. *)

From Stdlib Require Import ZArith Lia Ascii String Sorted.
From stdpp Require Import base option list sorting gmap strings.

Open Scope Z_scope.

(** ** Python strings *)

Abbreviation pystr := (list Z) (only parsing).

(** An ASCII literal as a sequence of code points. *)
Fixpoint py (s : string) : pystr :=
  match s with
  | EmptyString => []
  | String a r => Z.of_nat (nat_of_ascii a) :: py r
  end.

(** The non-ASCII glyphs of the source's literals. *)
Definition glyph_folder : Z := 0x1F4C1.
Definition glyph_plus : Z := 0x2795.
Definition glyph_cross : Z := 0x274C.
Definition glyph_check : Z := 0x2705.
Definition glyph_bin : Z := 0x1F5D1.
Definition glyph_gear : pystr := [0x2699; 0xFE0F].
Definition glyph_pencil : pystr := [0x270F; 0xFE0F].
Definition glyph_fire : Z := 0x1F525.
Definition glyph_back : pystr := [0x2B05; 0xFE0F].

(** [f"{x}"] where [x] is [Optional[str]]: [None] prints as ["None"]. *)
Definition fmt (o : option pystr) : pystr := default (py "None") o.

(** [s.startswith(p)] *)
Fixpoint startswith (p s : pystr) : bool :=
  match p, s with
  | [], _ => true
  | _ :: _, [] => false
  | a :: p', b :: s' => bool_decide (a = b) && startswith p' s'
  end.

(** Python's [a or b] on [Optional[str]]: [None] and the empty string are
    falsy. *)
Definition truthy (o : option pystr) : bool :=
  match o with
  | Some (_ :: _) => true
  | _ => false
  end.

Definition py_or (a b : option pystr) : option pystr :=
  if truthy a then a else b.

(** ** Store: the two SQLite tables

    [categories (id INTEGER PRIMARY KEY, name TEXT UNIQUE)]
    [tasks (id INTEGER PRIMARY KEY, cat_id INTEGER, chat_id INTEGER,
            msg_id INTEGER, preview_text TEXT)]

    An [INTEGER PRIMARY KEY] column is the table's rowid. A table is kept
    as the list of its rows in rowid order, which is the order in which a
    full scan of the table yields them. *)

Record Category := { c_id : Z; c_name : option pystr }.

Record Task := {
  t_id : Z;
  t_cat_id : option Z;
  t_chat_id : Z;
  t_msg_id : Z;
  t_preview : pystr
}.

Record Store := { categories : list Category; tasks : list Task }.

(** The schema created by [main] on a fresh database. *)
Definition empty_store : Store := {| categories := []; tasks := [] |}.

(** Rowid chosen by SQLite for a row inserted without one: 1 in an empty
    table, otherwise one more than the largest rowid in use (the 63-bit
    ceiling is not modelled). *)
Definition next_rowid (ids : list Z) : Z :=
  match ids with
  | [] => 1
  | i :: r => 1 + foldr Z.max i r
  end.

Inductive Exn := TransportError | IntegrityError | AttributeError.

(** Does some row already hold the text [n] in the UNIQUE column? NULLs
    never clash with each other. *)
Definition name_held (n : pystr) (cs : list Category) : bool :=
  bool_decide (Exists (λ c, c_name c = Some n) cs).

(** [INSERT OR IGNORE INTO categories (name) VALUES (?)] *)
Definition insert_or_ignore_category (name : option pystr) (s : Store) : Store :=
  let clash := match name with Some n => name_held n (categories s) | None => false end in
  if clash then s
  else {| categories := categories s ++
            [{| c_id := next_rowid (c_id <$> categories s); c_name := name |}];
          tasks := tasks s |}.

(** [SELECT name FROM categories]. The statement has no ORDER BY; the rows
    are taken in table order here and no property below relies on their
    order. *)
Definition select_category_names (s : Store) : list (option pystr) :=
  c_name <$> categories s.

(** [SELECT id FROM categories WHERE name = ?] followed by [fetchone]. The
    parameter is always a [str] here. *)
Definition select_category_id (n : pystr) (s : Store) : option Z :=
  c_id <$> head (filter (λ c, c_name c = Some n) (categories s)).

(** [UPDATE categories SET name = ? WHERE id = ?]. The id parameter may be
    [None], which selects no row. When the selected row exists and another
    row already holds the new text, the UNIQUE constraint aborts the
    statement with [sqlite3.IntegrityError] and nothing is changed. *)
Definition rename_clash (new : option pystr) (i : Z) (cs : list Category) : bool :=
  match new with
  | None => false
  | Some n =>
      bool_decide (Exists (λ c, c_id c = i) cs)
      && bool_decide (Exists (λ c, c_name c = Some n ∧ c_id c ≠ i) cs)
  end.

Definition set_name (new : option pystr) (i : Z) (c : Category) : Category :=
  if decide (c_id c = i) then {| c_id := c_id c; c_name := new |} else c.

Definition update_category_name (new : option pystr) (id : option Z) (s : Store)
  : Exn + Store :=
  match id with
  | None => inr s
  | Some i =>
      if rename_clash new i (categories s) then inl IntegrityError
      else inr {| categories := set_name new i <$> categories s; tasks := tasks s |}
  end.

(** [DELETE FROM categories WHERE id = ?] *)
Definition delete_category_row (i : Z) (s : Store) : Store :=
  {| categories := filter (λ c, c_id c ≠ i) (categories s); tasks := tasks s |}.

(** [SELECT id, chat_id, msg_id FROM tasks WHERE cat_id = ?]: a scan of the
    table, the only access path the schema offers. *)
Definition select_tasks (cat : Z) (s : Store) : list Task :=
  filter (λ t, t_cat_id t = Some cat) (tasks s).

(** [INSERT INTO tasks (cat_id, chat_id, msg_id, preview_text) VALUES (?, ?, ?, ?)] *)
Definition insert_task (cat : option Z) (chat msg : Z) (preview : pystr) (s : Store) : Store :=
  {| categories := categories s;
     tasks := tasks s ++
       [{| t_id := next_rowid (t_id <$> tasks s); t_cat_id := cat;
           t_chat_id := chat; t_msg_id := msg; t_preview := preview |}] |}.

(** [DELETE FROM tasks WHERE id = ?] *)
Definition delete_task_row (i : Z) (s : Store) : Store :=
  {| categories := categories s; tasks := filter (λ t, t_id t ≠ i) (tasks s) |}.

(** [DELETE FROM tasks WHERE cat_id = ?] *)
Definition delete_tasks_by_category (i : Z) (s : Store) : Store :=
  {| categories := categories s;
     tasks := filter (λ t, t_cat_id t ≠ Some i) (tasks s) |}.

(** ** Callback payloads, conversation state and keyboards *)

Inductive Action := DELETE_TASK | DELETE_CAT | RENAME_CAT | SETTINGS.

(** [TaskCB] (prefix ["t"]) and [CategoryCB] (prefix ["c"]). *)
Inductive CallbackData :=
| TaskCB (action : Action) (id : Z)
| CategoryCB (action : Action) (id : Z).

Inductive BotState :=
| waiting_content
| waiting_new_category_name
| waiting_rename_category.

#[global] Instance Action_eq_dec : EqDecision Action.
Proof. solve_decision. Defined.
#[global] Instance BotState_eq_dec : EqDecision BotState.
Proof. solve_decision. Defined.

(** The [FSMContext] of one chat: the current state ([None] when idle) and
    the scratch dictionary. *)
Record Ctx := { fsm_state : option BotState; fsm_data : gmap string Z }.

(** What [state.clear()] leaves, and what a chat without history has. *)
Definition idle_ctx : Ctx := {| fsm_state := None; fsm_data := ∅ |}.

Inductive Markup :=
| ReplyKeyboard (rows : list (list pystr))
| InlineKeyboard (rows : list (list (pystr * CallbackData))).

(** [builder.adjust(size)]: rows of [size] buttons, the last one possibly
    shorter. [room] is the space left in the row being filled, [row] that
    row in reverse. *)
Fixpoint adjust_go {B} (size room : nat) (row : list B) (l : list B) : list (list B) :=
  match l with
  | [] => match row with [] => [] | _ => [rev row] end
  | b :: r =>
      match room with
      | O => rev row :: adjust_go size (size - 1) [b] r
      | S room' => adjust_go size room' (b :: row) r
      end
  end.

Definition adjust {B} (size : nat) (l : list B) : list (list B) :=
  adjust_go size size [] l.

Definition folder_label (name : option pystr) : pystr :=
  glyph_folder :: py " " ++ fmt name.

Definition new_category_text : pystr := glyph_plus :: py " New Category".
Definition cancel_text : pystr := glyph_cross :: py " Cancel".
Definition folder_prefix : pystr := glyph_folder :: py " ".
Definition add_to_prefix : pystr := glyph_plus :: py " Add to ".

Module KeyboardFactory.

Definition main_menu (db : Store) : Markup :=
  ReplyKeyboard
    (adjust 2 ((folder_label <$> select_category_names db) ++ [new_category_text])).

Definition cancel_kb : Markup := ReplyKeyboard [[cancel_text]].

Definition task_inline (task_id : Z) : Markup :=
  InlineKeyboard [[(glyph_bin :: py " Delete", TaskCB DELETE_TASK task_id)]].

Definition category_settings_btn (cat_id : Z) : Markup :=
  InlineKeyboard
    [[(glyph_gear ++ py " Category Settings", CategoryCB SETTINGS cat_id)]].

Definition category_mgmt_menu (cat_id : Z) : Markup :=
  InlineKeyboard
    (adjust 1
       [(glyph_pencil ++ py " Rename", CategoryCB RENAME_CAT cat_id);
        (glyph_fire :: py " Delete", CategoryCB DELETE_CAT cat_id);
        (glyph_back ++ py " Back", CategoryCB SETTINGS cat_id)]).

End KeyboardFactory.

(** The buttons of a reply keyboard, row after row. *)
Definition reply_buttons (m : Markup) : list pystr :=
  match m with
  | ReplyKeyboard rows => concat rows
  | InlineKeyboard _ => []
  end.

(** ** Inbound events and outbound calls *)

(** The fields of an aiogram [Message] that the handlers read.
    [m_is_start] is the verdict of the framework's [Command("start")]
    filter on the message. *)
Record Message := {
  m_chat : Z;
  m_user : Z;
  m_id : Z;
  m_text : option pystr;
  m_caption : option pystr;
  m_is_start : bool
}.

(** A callback query: the chat and id of the message carrying the tapped
    button, the user, and the unpacked payload. [q_accessible] tells what
    [call.message] is: a full [Message], or an [InaccessibleMessage] when
    the panel is too old for the platform to hand it out. The latter still
    names its chat and has the [answer] shortcut, but has neither
    [edit_text] nor [delete]. *)
Record CallbackQuery := {
  q_chat : Z;
  q_user : Z;
  q_msg_id : Z;
  q_accessible : bool;
  q_data : CallbackData
}.

Inductive Update :=
| UMessage (m : Message)
| UCallback (q : CallbackQuery).

Inductive Call :=
| SendMessage (chat : Z) (text : pystr) (markup : Markup)
| CopyMessage (chat from_chat msg_id : Z) (markup : Markup)
| EditMessageText (chat msg_id : Z) (text : pystr) (markup : Markup)
| AnswerCallback (text : option pystr) (show_alert : bool)
| DeleteMessage (chat msg_id : Z).

(** ** The handler monad

    A handler runs against the chat's context and the shared connection,
    appends every platform call it attempts (with its outcome) to a log,
    and either returns or raises. *)

Record HState := {
  h_ctx : Ctx;
  h_db : Store;
  h_out : list (Call * bool)
}.

Inductive Outcome (A : Type) :=
| Returned (a : A)
| Raised (e : Exn).
Arguments Returned {A} a.
Arguments Raised {A} e.

Definition M (A : Type) : Type := (nat → bool) → HState → Outcome A * HState.

#[global] Instance M_ret : MRet M := λ A a _ h, (Returned a, h).
#[global] Instance M_bind : MBind M := λ A B f m net h,
  match m net h with
  | (Returned a, h') => f a net h'
  | (Raised e, h') => (Raised e, h')
  end.

(** [try: body except Exception: ...]: the outcome becomes a value. *)
Definition try_except {A} (m : M A) : M (Outcome A) := λ net h,
  let '(r, h') := m net h in (Returned r, h').

(** An awaited platform call; the oracle is asked at the position of the
    call in this invocation's log. *)
Definition call (c : Call) : M unit := λ net h,
  let ok := net (length (h_out h)) in
  let h' := {| h_ctx := h_ctx h; h_db := h_db h; h_out := h_out h ++ [(c, ok)] |} in
  (if ok then Returned () else Raised TransportError, h').

Definition raise {A} (e : Exn) : M A := λ _ h, (Raised e, h).

Definition get_db : M Store := λ _ h, (Returned (h_db h), h).

Definition modify_db (f : Store → Store) : M unit := λ _ h,
  (Returned (), {| h_ctx := h_ctx h; h_db := f (h_db h); h_out := h_out h |}).

(** A statement that may violate a constraint. *)
Definition execute (f : Store → Exn + Store) : M unit := λ _ h,
  match f (h_db h) with
  | inl e => (Raised e, h)
  | inr db' => (Returned (), {| h_ctx := h_ctx h; h_db := db'; h_out := h_out h |})
  end.

Definition modify_ctx (f : Ctx → Ctx) : M unit := λ _ h,
  (Returned (), {| h_ctx := f (h_ctx h); h_db := h_db h; h_out := h_out h |}).

(** [FSMContext] operations. *)
Definition state_clear : M unit := modify_ctx (λ _, idle_ctx).

Definition state_set_state (s : BotState) : M unit :=
  modify_ctx (λ c, {| fsm_state := Some s; fsm_data := fsm_data c |}).

Definition state_update_data (k : string) (v : Z) : M unit :=
  modify_ctx (λ c, {| fsm_state := fsm_state c; fsm_data := <[k := v]> (fsm_data c) |}).

Definition state_get_data : M (gmap string Z) := λ _ h, (Returned (fsm_data (h_ctx h)), h).

(** ** Handlers *)

Definition CURRENT_CAT_ID : string := "current_cat_id"%string.
Definition RENAME_CAT_ID : string := "rename_cat_id"%string.

(** [message.answer(text, reply_markup=markup)] *)
Definition message_answer (chat : Z) (text : pystr) (markup : Markup) : M unit :=
  call (SendMessage chat text markup).

Definition cmd_start (message : Message) : M unit :=
  state_clear;;
  db ← get_db;
  message_answer (m_chat message) (py "Main Menu:") (KeyboardFactory.main_menu db).

Definition add_cat_init (message : Message) : M unit :=
  message_answer (m_chat message) (py "Enter category name:") KeyboardFactory.cancel_kb;;
  state_set_state waiting_new_category_name.

Definition save_category (message : Message) : M unit :=
  modify_db (insert_or_ignore_category (m_text message));;
  state_clear;;
  db ← get_db;
  message_answer (m_chat message)
    (py "Category '" ++ fmt (m_text message) ++ py "' created.")
    (KeyboardFactory.main_menu db).

(** The loop of [show_category] over the cursor: one [copy_message] per
    row, a failure is caught and the loop goes on; [count] counts the
    copies that went through. *)
Fixpoint replay (chat : Z) (rows : list Task) (count : nat) : M nat :=
  match rows with
  | [] => mret count
  | t :: rest =>
      r ← try_except
            (call (CopyMessage chat (t_chat_id t) (t_msg_id t)
                     (KeyboardFactory.task_inline (t_id t))));
      match r with
      | Returned _ => replay chat rest (S count)
      | Raised _ => replay chat rest count
      end
  end.

(** [show_category] is only reached through the filter
    [F.text.startswith(...)], so the text is a string there. *)
Definition show_category (message : Message) : M unit :=
  let cat_name := drop 2 (default [] (m_text message)) in
  db ← get_db;
  match select_category_id cat_name db with
  | None => mret ()
  | Some cat_id =>
      state_update_data CURRENT_CAT_ID cat_id;;
      _ ← replay (m_chat message) (select_tasks cat_id db) 0;
      message_answer (m_chat message)
        (py "Content of " ++ cat_name ++ py ":")
        (ReplyKeyboard [[add_to_prefix ++ cat_name; cancel_text]]);;
      message_answer (m_chat message) (py "Settings:")
        (KeyboardFactory.category_settings_btn cat_id)
  end.

(** [call.message.edit_text(...)] and [call.message.delete()]: on an
    [InaccessibleMessage] the method does not exist, so the attribute
    lookup raises before anything is sent. *)
Definition message_edit_text (q : CallbackQuery) (text : pystr) (markup : Markup)
  : M unit :=
  if q_accessible q
  then call (EditMessageText (q_chat q) (q_msg_id q) text markup)
  else raise AttributeError.

Definition message_delete (q : CallbackQuery) : M unit :=
  if q_accessible q
  then call (DeleteMessage (q_chat q) (q_msg_id q))
  else raise AttributeError.

Definition category_settings (q : CallbackQuery) (id : Z) : M unit :=
  message_edit_text q (py "Control Panel:") (KeyboardFactory.category_mgmt_menu id);;
  call (AnswerCallback None false).

Definition rename_cat_init (q : CallbackQuery) (id : Z) : M unit :=
  state_update_data RENAME_CAT_ID id;;
  message_answer (q_chat q) (py "Enter new name for this category:")
    KeyboardFactory.cancel_kb;;
  state_set_state waiting_rename_category;;
  call (AnswerCallback None false).

Definition save_renamed_category (message : Message) : M unit :=
  data ← state_get_data;
  let cat_id := data !! RENAME_CAT_ID in
  execute (update_category_name (m_text message) cat_id);;
  state_clear;;
  db ← get_db;
  message_answer (m_chat message)
    (py "Category renamed to '" ++ fmt (m_text message) ++ py "'")
    (KeyboardFactory.main_menu db).

Definition add_task_init (message : Message) : M unit :=
  message_answer (m_chat message) (py "Send content:") KeyboardFactory.cancel_kb;;
  state_set_state waiting_content.

(** [(message.text or message.caption or "Media")[:20]] *)
Definition preview_of (message : Message) : pystr :=
  take 20 (default (py "Media")
             (py_or (py_or (m_text message) (m_caption message)) (Some (py "Media")))).

Definition save_task (message : Message) : M unit :=
  data ← state_get_data;
  let cat_id := data !! CURRENT_CAT_ID in
  modify_db (insert_task cat_id (m_chat message) (m_id message) (preview_of message));;
  state_clear;;
  db ← get_db;
  message_answer (m_chat message) (glyph_check :: py " Saved!")
    (KeyboardFactory.main_menu db).

Definition delete_task (q : CallbackQuery) (id : Z) : M unit :=
  modify_db (delete_task_row id);;
  message_delete q;;
  call (AnswerCallback (Some (py "Deleted")) false).

Definition delete_category (q : CallbackQuery) (id : Z) : M unit :=
  modify_db (delete_tasks_by_category id);;
  modify_db (delete_category_row id);;
  call (AnswerCallback (Some (py "Category deleted")) true);;
  db ← get_db;
  message_answer (q_chat q) (py "Returning to Main Menu...")
    (KeyboardFactory.main_menu db);;
  message_delete q.

(** ** Dispatcher

    Handlers are tried in registration order and the first whose filter
    accepts the event runs; an event accepted by none is dropped. *)

Inductive Invocation :=
| I_cmd_start (m : Message)
| I_add_cat_init (m : Message)
| I_save_category (m : Message)
| I_show_category (m : Message)
| I_category_settings (q : CallbackQuery) (id : Z)
| I_rename_cat_init (q : CallbackQuery) (id : Z)
| I_save_renamed_category (m : Message)
| I_add_task_init (m : Message)
| I_save_task (m : Message)
| I_delete_task (q : CallbackQuery) (id : Z)
| I_delete_category (q : CallbackQuery) (id : Z).

Definition run (i : Invocation) : M unit :=
  match i with
  | I_cmd_start m => cmd_start m
  | I_add_cat_init m => add_cat_init m
  | I_save_category m => save_category m
  | I_show_category m => show_category m
  | I_category_settings q id => category_settings q id
  | I_rename_cat_init q id => rename_cat_init q id
  | I_save_renamed_category m => save_renamed_category m
  | I_add_task_init m => add_task_init m
  | I_save_task m => save_task m
  | I_delete_task q id => delete_task q id
  | I_delete_category q id => delete_category q id
  end.

(** [F.text == s] and [F.text.startswith(p)]; both reject a message
    without text. *)
Definition text_is (s : pystr) (m : Message) : bool :=
  bool_decide (m_text m = Some s).

Definition text_startswith (p : pystr) (m : Message) : bool :=
  match m_text m with
  | Some t => startswith p t
  | None => false
  end.

Definition in_state (st : option BotState) (s : BotState) : bool :=
  bool_decide (st = Some s).

Definition route_message (st : option BotState) (m : Message) : option Invocation :=
  if text_is cancel_text m || m_is_start m then Some (I_cmd_start m)
  else if text_is new_category_text m then Some (I_add_cat_init m)
  else if in_state st waiting_new_category_name then Some (I_save_category m)
  else if text_startswith folder_prefix m then Some (I_show_category m)
  else if in_state st waiting_rename_category then Some (I_save_renamed_category m)
  else if text_startswith add_to_prefix m then Some (I_add_task_init m)
  else if in_state st waiting_content then Some (I_save_task m)
  else None.

Definition route_callback (q : CallbackQuery) : option Invocation :=
  match q_data q with
  | CategoryCB SETTINGS id => Some (I_category_settings q id)
  | CategoryCB RENAME_CAT id => Some (I_rename_cat_init q id)
  | TaskCB DELETE_TASK id => Some (I_delete_task q id)
  | CategoryCB DELETE_CAT id => Some (I_delete_category q id)
  | _ => None
  end.

Definition route (st : option BotState) (u : Update) : option Invocation :=
  match u with
  | UMessage m => route_message st m
  | UCallback q => route_callback q
  end.

(** The whole bot: the shared store and one context per (chat, user). *)
Record World := { w_db : Store; w_fsm : gmap (Z * Z) Ctx }.

Definition initial_world : World := {| w_db := empty_store; w_fsm := ∅ |}.

Definition key_of (u : Update) : Z * Z :=
  match u with
  | UMessage m => (m_chat m, m_user m)
  | UCallback q => (q_chat q, q_user q)
  end.

Definition ctx_of (w : World) (k : Z * Z) : Ctx := default idle_ctx (w_fsm w !! k).

(** One update through the dispatcher. An exception leaving the handler is
    caught by the framework; what the handler did before stays done. *)
Definition feed_update (net : nat → bool) (w : World) (u : Update)
  : World * list (Call * bool) * Outcome unit :=
  let k := key_of u in
  let ctx := ctx_of w k in
  match route (fsm_state ctx) u with
  | None => (w, [], Returned ())
  | Some i =>
      let '(r, h) := run i net {| h_ctx := ctx; h_db := w_db w; h_out := [] |} in
      ({| w_db := h_db h; w_fsm := <[k := h_ctx h]> (w_fsm w) |}, h_out h, r)
  end.

Definition step (net : nat → bool) (w : World) (u : Update) : World :=
  (feed_update net w u).1.1.

(** A session: updates handled one after the other, each with the
    transport behaviour it meets. *)
Fixpoint session (w : World) (us : list ((nat → bool) * Update)) : World :=
  match us with
  | [] => w
  | (net, u) :: rest => session (step net w u) rest
  end.

Definition all_ok : nat → bool := λ _, true.

(** ** Predicates used by the properties *)

(** Text names are unique, as the UNIQUE column demands (NULLs excepted). *)
Definition names_unique (cs : list Category) : Prop :=
  Forall (λ c1, Forall (λ c2,
    is_Some (c_name c1) → c_name c1 = c_name c2 → c_id c1 = c_id c2) cs) cs.

(** What the schema guarantees of a store: both tables hold their rows in
    strictly ascending rowid order and no text name occurs twice. *)
Definition store_wf (s : Store) : Prop :=
  StronglySorted Z.lt (c_id <$> categories s)
  ∧ StronglySorted Z.lt (t_id <$> tasks s)
  ∧ names_unique (categories s).

#[global] Instance names_unique_dec cs : Decision (names_unique cs).
Proof. unfold names_unique. apply _. Defined.

#[global] Instance store_wf_dec s : Decision (store_wf s).
Proof. unfold store_wf. apply _. Defined.

(** The ids a task may legitimately carry in [cat_id]. *)
Definition category_refs (s : Store) : list (option Z) :=
  (λ c, Some (c_id c)) <$> categories s.

(** Referential integrity of [tasks.cat_id]: never NULL, never dangling. *)
Definition ref_integrity (s : Store) : Prop :=
  Forall (λ t, t_cat_id t ∈ category_refs s) (tasks s).

#[global] Instance ref_integrity_dec s : Decision (ref_integrity s).
Proof. unfold ref_integrity. apply _. Defined.

(** If this update is going to run [save_task], the scratch value it will
    store as [cat_id] is the id of a category that exists right now. *)
Definition save_target_ok (w : World) (u : Update) : Prop :=
  let ctx := ctx_of w (key_of u) in
  match route (fsm_state ctx) u with
  | Some (I_save_task _) => fsm_data ctx !! CURRENT_CAT_ID ∈ category_refs (w_db w)
  | _ => True
  end.

#[global] Instance save_target_ok_dec w u : Decision (save_target_ok w u).
Proof.
  unfold save_target_ok.
  destruct (route (fsm_state (ctx_of w (key_of u))) u) as [[]|]; apply _.
Defined.

Fixpoint guarded (w : World) (us : list ((nat → bool) * Update)) : Prop :=
  match us with
  | [] => True
  | (net, u) :: rest => save_target_ok w u ∧ guarded (step net w u) rest
  end.

#[global] Instance guarded_dec us : ∀ w, Decision (guarded w us).
Proof. induction us as [|[net u] us IH]; simpl; intros w; apply _. Defined.

(** The handlers that open a dialogue: they prompt first and change the
    state afterwards. *)
Definition prompts_first (i : Invocation) : bool :=
  match i with
  | I_add_cat_init _ | I_rename_cat_init _ _ | I_add_task_init _ => true
  | _ => false
  end.

(** The state each of them is meant to enter. *)
Definition target_state (i : Invocation) : option BotState :=
  match i with
  | I_add_cat_init _ => Some waiting_new_category_name
  | I_rename_cat_init _ _ => Some waiting_rename_category
  | I_add_task_init _ => Some waiting_content
  | _ => None
  end.

(** The replay calls of a log, and the replay call owed to a task. *)
Definition is_copy (c : Call) : bool :=
  match c with
  | CopyMessage _ _ _ _ => true
  | _ => false
  end.

Definition copy_calls (log : list (Call * bool)) : list (Call * bool) :=
  filter (λ x, is_copy x.1) log.

Definition copy_of (chat : Z) (t : Task) : Call :=
  CopyMessage chat (t_chat_id t) (t_msg_id t) (KeyboardFactory.task_inline (t_id t)).

(** What the replay loop appends to the log when it starts at position
    [base]: one attempt per row, each with the outcome the transport gives
    at its position. *)
Definition replayed (chat : Z) (net : nat → bool) (base : nat) (rows : list Task)
  : list (Call * bool) :=
  imap (λ k t, (copy_of chat t, net (base + k)%nat)) rows.

(** The name an incoming menu text asks for: [message.text[2:]]. *)
Definition requested_name (m : Message) : pystr := drop 2 (default [] (m_text m)).

(** The message is handled by [show_category] and names category [cat]. *)
Definition opens (w : World) (m : Message) (cat : Z) : Prop :=
  route (fsm_state (ctx_of w (m_chat m, m_user m))) (UMessage m) = Some (I_show_category m)
  ∧ select_category_id (requested_name m) (w_db w) = Some cat.

(** The log and the outcome of one update. *)
Definition log_of (net : nat → bool) (w : World) (u : Update) : list (Call * bool) :=
  (feed_update net w u).1.2.

Definition outcome_of (net : nat → bool) (w : World) (u : Update) : Outcome unit :=
  (feed_update net w u).2.

(** ** Sample data *)

Definition text_message (chat id : Z) (t : pystr) : Message :=
  {| m_chat := chat; m_user := chat; m_id := id; m_text := Some t;
     m_caption := None; m_is_start := false |}.

(** A photo without caption. *)
Definition media_message (chat id : Z) : Message :=
  {| m_chat := chat; m_user := chat; m_id := id; m_text := None;
     m_caption := None; m_is_start := false |}.

(** A tap on a button of a message the platform still hands out, and one
    on a button of a message it no longer does. *)
Definition tap (chat msg : Z) (d : CallbackData) : CallbackQuery :=
  {| q_chat := chat; q_user := chat; q_msg_id := msg; q_accessible := true;
     q_data := d |}.

Definition old_tap (chat msg : Z) (d : CallbackData) : CallbackQuery :=
  {| q_chat := chat; q_user := chat; q_msg_id := msg; q_accessible := false;
     q_data := d |}.

Definition offline : nat → bool := λ _, false.

(** Create a category, open it, press its add-to shortcut and send a photo;
    the platform is unreachable for two of the five updates. *)
Definition work_session : list ((nat → bool) * Update) :=
  [(all_ok, UMessage (text_message 7 1 new_category_text));
   (all_ok, UMessage (text_message 7 2 (py "Work")));
   (offline, UMessage (text_message 7 3 (folder_prefix ++ py "Work")));
   (all_ok, UMessage (text_message 7 4 (add_to_prefix ++ py "Work")));
   (offline, UMessage (media_message 7 5))].

(** Two categories, Work (id 1) and Home (id 2), and a chat that has asked
    to rename Home. *)
Definition rename_session : list ((nat → bool) * Update) :=
  [(all_ok, UMessage (text_message 7 1 new_category_text));
   (all_ok, UMessage (text_message 7 2 (py "Work")));
   (all_ok, UMessage (text_message 7 3 new_category_text));
   (all_ok, UMessage (text_message 7 4 (py "Home")));
   (all_ok, UCallback (tap 7 5 (CategoryCB RENAME_CAT 2)))].

Definition rename_world : World := session initial_world rename_session.

(** The handler state in which the dispatcher would start a handler for
    that chat. *)
Definition rename_state : HState :=
  {| h_ctx := ctx_of rename_world (7, 7); h_db := w_db rename_world; h_out := [] |}.

(** Categories Work (1) and Home (2); three tasks are filed under Work
    (ids 1, 3, 4) and one under Home (id 2). *)
Definition file_under (name : pystr) (id : Z) : list ((nat → bool) * Update) :=
  [(all_ok, UMessage (text_message 7 id (folder_prefix ++ name)));
   (all_ok, UMessage (text_message 7 (id + 1) (add_to_prefix ++ name)));
   (all_ok, UMessage (media_message 7 (id + 2)))].

Definition replay_session : list ((nat → bool) * Update) :=
  [(all_ok, UMessage (text_message 7 1 new_category_text));
   (all_ok, UMessage (text_message 7 2 (py "Work")));
   (all_ok, UMessage (text_message 7 3 new_category_text));
   (all_ok, UMessage (text_message 7 4 (py "Home")))]
  ++ file_under (py "Work") 10 ++ file_under (py "Home") 20
  ++ file_under (py "Work") 30 ++ file_under (py "Work") 40.

(** A transport on which exactly the second call of an invocation fails. *)
Definition fails_second : nat → bool := λ k, negb (Nat.eqb k 1).

(** Work is created and opened, then deleted from its settings panel; the
    chat still carries its id in scratch when the add-to text arrives. *)
Definition stale_session : list ((nat → bool) * Update) :=
  [(all_ok, UMessage (text_message 7 1 new_category_text));
   (all_ok, UMessage (text_message 7 2 (py "Work")));
   (all_ok, UMessage (text_message 7 3 (folder_prefix ++ py "Work")));
   (all_ok, UCallback (tap 7 4 (CategoryCB DELETE_CAT 1)));
   (all_ok, UMessage (text_message 7 5 (add_to_prefix ++ py "Work")));
   (all_ok, UMessage (text_message 7 6 (py "buy milk")))].

(** The buttons of an inline keyboard, row after row. *)
Definition inline_buttons (m : Markup) : list (pystr * CallbackData) :=
  match m with
  | InlineKeyboard rows => concat rows
  | ReplyKeyboard _ => []
  end.

Definition reply_rows (m : Markup) : list (list pystr) :=
  match m with
  | ReplyKeyboard rows => rows
  | InlineKeyboard _ => []
  end.

(** A chat that is waiting for the new name of a category knows which
    category it is renaming. *)
Definition rename_target_known (c : Ctx) : Prop :=
  fsm_state c = Some waiting_rename_category → is_Some (fsm_data c !! RENAME_CAT_ID).

(** A message none of the text filters accepts: no command, none of the
    fixed button texts, no folder or add-to prefix. *)
Definition plain_content (m : Message) : Prop :=
  m_is_start m = false
  ∧ text_is cancel_text m = false
  ∧ text_is new_category_text m = false
  ∧ text_startswith folder_prefix m = false
  ∧ text_startswith add_to_prefix m = false.

(** * Properties *)

(** ** Rowids and well-formed stores *)

Section store_facts.
Implicit Types (s : Store) (cs : list Category) (ids : list Z).

Lemma foldr_max_bounds (r : list Z) (i : Z) :
  (i <= foldr Z.max i r)%Z ∧ Forall (λ j, (j <= foldr Z.max i r)%Z) r.
Proof.
  induction r as [|a r [IHi IHr]]; simpl.
  - split; [lia | constructor].
  - split; [lia |]. constructor; [lia |].
    eapply Forall_impl; [exact IHr |]. simpl. intros; lia.
Qed.

Lemma next_rowid_fresh ids : Forall (λ i, i < next_rowid ids) ids.
Proof.
  destruct ids as [|i r]; [constructor |]. unfold next_rowid.
  destruct (foldr_max_bounds r i) as [Hi Hr].
  constructor; [lia |]. eapply Forall_impl; [exact Hr |]. simpl. intros; lia.
Qed.

Lemma ascending_snoc ids :
  StronglySorted Z.lt ids → StronglySorted Z.lt (ids ++ [next_rowid ids]).
Proof.
  intros Hs. apply StronglySorted_app. split_and!.
  - intros x1 x2 H1 H2. apply list_elem_of_singleton in H2 as ->.
    pose proof (next_rowid_fresh ids) as Hf. rewrite Forall_forall in Hf. auto.
  - done.
  - repeat constructor.
Qed.

Lemma ascending_filter {A} (f : A → Z) (P : A → Prop) `{∀ x, Decision (P x)}
    (l : list A) :
  StronglySorted Z.lt (f <$> l) → StronglySorted Z.lt (f <$> filter P l).
Proof.
  induction l as [|a l IH]; simpl; [done |].
  rewrite StronglySorted_cons. intros [Hall Hs].
  rewrite filter_cons. destruct (decide (P a)); simpl; [| by auto].
  apply StronglySorted_cons. split; [| by auto].
  rewrite Forall_forall in *. intros x Hx. apply Hall.
  apply list_elem_of_fmap in Hx as (y & -> & Hy).
  apply list_elem_of_filter in Hy as [_ Hy]. by apply list_elem_of_fmap_2.
Qed.

Lemma ascending_NoDup ids : StronglySorted Z.lt ids → NoDup ids.
Proof.
  induction ids as [|i ids IH]; [constructor |].
  rewrite StronglySorted_cons, NoDup_cons, Forall_forall.
  intros [Hall Hs]. split; [| by auto].
  intros Hin. specialize (Hall _ Hin). lia.
Qed.

Lemma names_unique_alt cs :
  names_unique cs ↔
  ∀ c1 c2, c1 ∈ cs → c2 ∈ cs →
    is_Some (c_name c1) → c_name c1 = c_name c2 → c_id c1 = c_id c2.
Proof.
  unfold names_unique. rewrite Forall_forall. split.
  - intros H c1 c2 H1 H2. specialize (H c1 H1). rewrite Forall_forall in H. auto.
  - intros H c1 H1. rewrite Forall_forall. intros c2 H2. auto.
Qed.

Lemma name_held_spec n cs :
  name_held n cs = true ↔ ∃ c, c ∈ cs ∧ c_name c = Some n.
Proof. unfold name_held. rewrite bool_decide_eq_true, Exists_exists. done. Qed.

Lemma set_name_id new i c : c_id (set_name new i c) = c_id c.
Proof. unfold set_name. by destruct (decide _). Qed.

Lemma set_name_ids new i cs : c_id <$> (set_name new i <$> cs) = c_id <$> cs.
Proof.
  rewrite <- list_fmap_compose. apply list_fmap_ext. intros ? c _. apply set_name_id.
Qed.

Lemma insert_or_ignore_category_wf name s :
  store_wf s → store_wf (insert_or_ignore_category name s).
Proof.
  intros (Hc & Ht & Hn). unfold insert_or_ignore_category.
  destruct (match name with Some n => name_held n (categories s) | None => false end)
    eqn:Hclash; [done |].
  split_and!; simpl; [| done |].
  - rewrite fmap_app. by apply ascending_snoc.
  - apply names_unique_alt. rewrite names_unique_alt in Hn.
    intros c1 c2 H1 H2 Hs He.
    apply elem_of_app in H1 as [H1|H1]; apply elem_of_app in H2 as [H2|H2].
    + eauto.
    + apply list_elem_of_singleton in H2 as ->. simpl in *.
      destruct Hs as [n Hs]. rewrite <- He, Hs in Hclash.
      apply not_true_iff_false in Hclash. exfalso. apply Hclash.
      apply name_held_spec. eauto.
    + apply list_elem_of_singleton in H1 as ->. simpl in *.
      destruct Hs as [n ->].
      apply not_true_iff_false in Hclash. exfalso. apply Hclash.
      apply name_held_spec. eauto.
    + apply list_elem_of_singleton in H1 as ->.
      by apply list_elem_of_singleton in H2 as ->.
Qed.

Lemma rename_clash_false new i cs c c' :
  rename_clash new i cs = false →
  c ∈ cs → c_id c = i → c' ∈ cs → c_id c' ≠ i →
  is_Some new → c_name c' ≠ new.
Proof.
  unfold rename_clash. intros Hclash Hc Hi Hc' Hne [n ->] Heq.
  apply andb_false_iff in Hclash as [H|H]; apply bool_decide_eq_false in H;
    apply H, Exists_exists; eauto.
Qed.

Lemma update_category_name_wf new id s s' :
  store_wf s → update_category_name new id s = inr s' → store_wf s'.
Proof.
  intros (Hc & Ht & Hn) Hupd. unfold update_category_name in Hupd.
  destruct id as [i|]; [| by simplify_eq].
  destruct (rename_clash new i (categories s)) eqn:Hclash; simplify_eq.
  split_and!; simpl; [by rewrite set_name_ids | done |].
  apply names_unique_alt. rewrite names_unique_alt in Hn.
  intros c1' c2' H1 H2 Hs He.
  apply list_elem_of_fmap in H1 as (c1 & -> & H1).
  apply list_elem_of_fmap in H2 as (c2 & -> & H2).
  rewrite !set_name_id. unfold set_name in *.
  destruct (decide (c_id c1 = i)) as [E1|E1], (decide (c_id c2 = i)) as [E2|E2];
    simpl in *.
  - congruence.
  - exfalso. eapply (rename_clash_false new i _ c1 c2); eauto.
  - exfalso. eapply (rename_clash_false new i _ c2 c1); eauto. by rewrite <- He.
  - eauto.
Qed.

Lemma delete_category_row_wf i s : store_wf s → store_wf (delete_category_row i s).
Proof.
  intros (Hc & Ht & Hn). split_and!; simpl; [by apply ascending_filter | done |].
  apply names_unique_alt. rewrite names_unique_alt in Hn.
  intros c1 c2 [_ H1]%list_elem_of_filter [_ H2]%list_elem_of_filter. eauto.
Qed.

Lemma insert_task_wf cat chat msg preview s :
  store_wf s → store_wf (insert_task cat chat msg preview s).
Proof.
  intros (Hc & Ht & Hn). split_and!; simpl; [done | | done].
  rewrite fmap_app. by apply ascending_snoc.
Qed.

Lemma delete_task_row_wf i s : store_wf s → store_wf (delete_task_row i s).
Proof.
  intros (Hc & Ht & Hn). split_and!; simpl; [done | | done].
  by apply ascending_filter.
Qed.

Lemma delete_tasks_by_category_wf i s :
  store_wf s → store_wf (delete_tasks_by_category i s).
Proof.
  intros (Hc & Ht & Hn). split_and!; simpl; [done | | done].
  by apply ascending_filter.
Qed.

End store_facts.

(** ** The handler monad and the replay loop *)

Ltac unfold_M :=
  unfold mbind, mret, M_bind, M_ret, message_answer, message_edit_text,
    message_delete, raise, call, get_db, modify_db,
    execute, modify_ctx, state_clear, state_set_state, state_update_data,
    state_get_data, try_except in *;
  simpl in *.

(** Case analysis on the kind of panel message and on every transport
    outcome a goal still depends on. *)
Ltac ask_net net :=
  repeat match goal with
         | |- context [q_accessible ?q] => destruct (q_accessible q) eqn:?; simpl
         | |- context [net ?k] => destruct (net k) eqn:?; simpl
         end.

Section replay_facts.
Variables (chat : Z) (net : nat → bool).

Lemma replayed_cons base t rows :
  replayed chat net base (t :: rows)
  = (copy_of chat t, net base) :: replayed chat net (S base) rows.
Proof.
  unfold replayed. simpl. f_equal; [by rewrite Nat.add_0_r |].
  apply imap_ext. intros k x _. simpl. do 2 f_equal. lia.
Qed.

Lemma replay_spec rows : ∀ count h,
  ∃ n, replay chat rows count net h
       = (Returned n,
          {| h_ctx := h_ctx h; h_db := h_db h;
             h_out := h_out h ++ replayed chat net (length (h_out h)) rows |}).
Proof.
  induction rows as [|t rows IH]; intros count h.
  - exists count. unfold_M. rewrite app_nil_r. by destruct h.
  - simpl. unfold_M. fold (copy_of chat t).
    set (x := (copy_of chat t, net (length (h_out h)))).
    set (h1 := {| h_ctx := h_ctx h; h_db := h_db h; h_out := h_out h ++ [x] |}).
    assert (Hout : h_out h1 ++ replayed chat net (length (h_out h1)) rows
                   = h_out h ++ replayed chat net (length (h_out h)) (t :: rows)).
    { rewrite replayed_cons. subst h1 x. simpl.
      rewrite length_app, <- app_assoc. simpl.
      by replace (length (h_out h) + 1)%nat with (S (length (h_out h))) by lia. }
    destruct (net (length (h_out h))) eqn:Hnet; simpl.
    + destruct (IH (S count) h1) as [n Hn]. exists n.
      rewrite Hn, Hout. done.
    + destruct (IH count h1) as [n Hn]. exists n.
      rewrite Hn, Hout. done.
Qed.

Lemma replayed_calls base rows : (replayed chat net base rows).*1 = copy_of chat <$> rows.
Proof.
  revert base. induction rows as [|t rows IH]; intros base; [done |].
  rewrite replayed_cons. simpl. by rewrite IH.
Qed.

Lemma replayed_outcomes base rows :
  (replayed chat net base rows).*2 = net <$> seq base (length rows).
Proof.
  revert base. induction rows as [|t rows IH]; intros base; [done |].
  rewrite replayed_cons. simpl. by rewrite IH.
Qed.

Lemma replayed_all_copies base rows :
  copy_calls (replayed chat net base rows) = replayed chat net base rows.
Proof.
  revert base. induction rows as [|t rows IH]; intros base; [done |].
  rewrite replayed_cons. unfold copy_calls in *. rewrite filter_cons. simpl.
  by rewrite IH.
Qed.

End replay_facts.

(** ** What each handler leaves behind *)

Section handler_facts.
Implicit Types (m : Message) (q : CallbackQuery) (net : nat → bool) (h : HState).

Lemma show_category_missing m net h :
  select_category_id (requested_name m) (h_db h) = None →
  show_category m net h = (Returned (), h).
Proof.
  intros Hsel. unfold show_category. fold (requested_name m). unfold_M.
  by rewrite Hsel.
Qed.

Lemma show_category_found m net h cat :
  select_category_id (requested_name m) (h_db h) = Some cat →
  ∃ tail,
    (show_category m net h).2
    = {| h_ctx := {| fsm_state := fsm_state (h_ctx h);
                     fsm_data := <[CURRENT_CAT_ID := cat]> (fsm_data (h_ctx h)) |};
         h_db := h_db h;
         h_out := h_out h
                  ++ replayed (m_chat m) net (length (h_out h)) (select_tasks cat (h_db h))
                  ++ tail |}
    ∧ copy_calls tail = [].
Proof.
  intros Hsel. unfold show_category. fold (requested_name m). unfold_M.
  rewrite Hsel.
  set (h0 := {| h_ctx := _; h_db := h_db h; h_out := h_out h |}).
  destruct (replay_spec (m_chat m) net (select_tasks cat (h_db h)) 0%nat h0)
    as [n Hn].
  rewrite Hn. subst h0. simpl.
  destruct (net _) eqn:H1; simpl; [destruct (net _) eqn:H2; simpl |];
    eexists; (split; [rewrite <- ?app_assoc; reflexivity | done]).
Qed.

Lemma show_category_db m net h : h_db (show_category m net h).2 = h_db h.
Proof.
  destruct (select_category_id (requested_name m) (h_db h)) as [cat|] eqn:Hsel.
  - destruct (show_category_found m net h cat Hsel) as (tail & -> & _). done.
  - by rewrite show_category_missing.
Qed.

Lemma save_renamed_category_db m net h :
  h_db (save_renamed_category m net h).2 = h_db h
  ∨ update_category_name (m_text m) (fsm_data (h_ctx h) !! RENAME_CAT_ID) (h_db h)
    = inr (h_db (save_renamed_category m net h).2).
Proof.
  unfold save_renamed_category. unfold_M.
  destruct (update_category_name _ _ _) as [e|db'] eqn:Hupd; simpl; [by left |].
  right. by ask_net net.
Qed.

(** No handler takes a well-formed store to an ill-formed one. *)
Lemma run_store_wf i net h :
  store_wf (h_db h) → store_wf (h_db (run i net h).2).
Proof.
  intros Hwf. destruct i; simpl.
  - unfold cmd_start. unfold_M. by ask_net net.
  - unfold add_cat_init. unfold_M. by ask_net net.
  - unfold save_category. unfold_M. ask_net net;
      by apply insert_or_ignore_category_wf.
  - by rewrite show_category_db.
  - unfold category_settings. unfold_M. by ask_net net.
  - unfold rename_cat_init. unfold_M. by ask_net net.
  - destruct (save_renamed_category_db m net h) as [-> | Hupd]; [done |].
    by eapply update_category_name_wf.
  - unfold add_task_init. unfold_M. by ask_net net.
  - unfold save_task. unfold_M. ask_net net; by apply insert_task_wf.
  - unfold delete_task. unfold_M. ask_net net; by apply delete_task_row_wf.
  - unfold delete_category. unfold_M.
    ask_net net; by apply delete_category_row_wf, delete_tasks_by_category_wf.
Qed.

Lemma step_db net w u :
  w_db (step net w u)
  = match route (fsm_state (ctx_of w (key_of u))) u with
    | Some i =>
        h_db (run i net {| h_ctx := ctx_of w (key_of u); h_db := w_db w; h_out := [] |}).2
    | None => w_db w
    end.
Proof.
  unfold step, feed_update. destruct (route _ u); [| done].
  by destruct (run _ _ _).
Qed.

Lemma step_store_wf net w u : store_wf (w_db w) → store_wf (w_db (step net w u)).
Proof.
  intros Hwf. rewrite step_db. destruct (route _ u); [| done].
  by apply run_store_wf.
Qed.

Lemma session_store_wf us : ∀ w, store_wf (w_db w) → store_wf (w_db (session w us)).
Proof.
  induction us as [|[net u] us IH]; intros w Hwf; simpl; [done |].
  by apply IH, step_store_wf.
Qed.

(** Every store the bot can reach from a fresh database is well formed. *)
Lemma reachable_store_wf us : store_wf (w_db (session initial_world us)).
Proof. apply session_store_wf. repeat split; constructor. Qed.

End handler_facts.

(** ** Referential integrity of [tasks.cat_id] *)

Section integrity.
Implicit Types (s : Store) (net : nat → bool) (h : HState).

Lemma ref_integrity_alt s :
  ref_integrity s ↔
  ∀ t, t ∈ tasks s → ∃ c, c ∈ categories s ∧ t_cat_id t = Some (c_id c).
Proof.
  unfold ref_integrity, category_refs. rewrite Forall_forall.
  split; intros H t Ht; specialize (H t Ht).
  - apply list_elem_of_fmap in H as (c & ? & ?). eauto.
  - destruct H as (c & ? & ->).
    by apply (list_elem_of_fmap_2 (λ c, Some (c_id c))).
Qed.

Lemma insert_or_ignore_category_integrity name s :
  ref_integrity s → ref_integrity (insert_or_ignore_category name s).
Proof.
  rewrite !ref_integrity_alt. intros H. unfold insert_or_ignore_category.
  destruct (match name with Some _ => _ | None => _ end); [done |]. simpl.
  intros t Ht. destruct (H t Ht) as (c & Hc & Hid).
  exists c. split; [| done]. apply elem_of_app. by left.
Qed.

Lemma update_category_name_integrity new id s s' :
  update_category_name new id s = inr s' → ref_integrity s → ref_integrity s'.
Proof.
  unfold update_category_name. intros Hupd.
  destruct id as [i|]; [| by simplify_eq].
  destruct (rename_clash _ _ _); simplify_eq.
  rewrite !ref_integrity_alt. simpl. intros H t Ht.
  destruct (H t Ht) as (c & Hc & Hid).
  exists (set_name new i c). split; [by apply list_elem_of_fmap_2 |].
  by rewrite set_name_id.
Qed.

Lemma insert_task_integrity cat chat msg preview s :
  cat ∈ category_refs s → ref_integrity s →
  ref_integrity (insert_task cat chat msg preview s).
Proof.
  unfold ref_integrity, category_refs. simpl. intros Hcat H.
  apply Forall_app. split; [done |]. by repeat constructor.
Qed.

Lemma delete_task_row_integrity i s :
  ref_integrity s → ref_integrity (delete_task_row i s).
Proof.
  rewrite !ref_integrity_alt. simpl. intros H t [_ Ht]%list_elem_of_filter. eauto.
Qed.

(** The two statements of [delete_category], in the handler's order. *)
Lemma cascade_integrity i s :
  ref_integrity s →
  ref_integrity (delete_category_row i (delete_tasks_by_category i s)).
Proof.
  rewrite !ref_integrity_alt. simpl. intros H t [Hne Ht]%list_elem_of_filter.
  destruct (H t Ht) as (c & Hc & Hid). exists c. split; [| done].
  apply list_elem_of_filter. split; [| done]. congruence.
Qed.

Lemma run_integrity i net h :
  ref_integrity (h_db h) →
  match i with
  | I_save_task _ => fsm_data (h_ctx h) !! CURRENT_CAT_ID ∈ category_refs (h_db h)
  | _ => True
  end →
  ref_integrity (h_db (run i net h).2).
Proof.
  intros Hri Hguard. destruct i; simpl.
  - unfold cmd_start. unfold_M. by ask_net net.
  - unfold add_cat_init. unfold_M. by ask_net net.
  - unfold save_category. unfold_M.
    ask_net net; by apply insert_or_ignore_category_integrity.
  - by rewrite show_category_db.
  - unfold category_settings. unfold_M. by ask_net net.
  - unfold rename_cat_init. unfold_M. by ask_net net.
  - destruct (save_renamed_category_db m net h) as [-> | Hupd]; [done |].
    by eapply update_category_name_integrity.
  - unfold add_task_init. unfold_M. by ask_net net.
  - unfold save_task. unfold_M. ask_net net; by apply insert_task_integrity.
  - unfold delete_task. unfold_M. ask_net net; by apply delete_task_row_integrity.
  - unfold delete_category. unfold_M. ask_net net; by apply cascade_integrity.
Qed.

Lemma step_integrity net w u :
  ref_integrity (w_db w) → save_target_ok w u → ref_integrity (w_db (step net w u)).
Proof.
  intros Hri Hok. rewrite step_db. unfold save_target_ok in Hok. simpl in Hok.
  destruct (route _ u) as [i|]; [| done].
  apply run_integrity; [done |]. by destruct i.
Qed.

End integrity.

(** C1 (as stated) fails: typing the add-to shortcut in a chat that has
    opened no category enters the content state with no [current_cat_id]
    in scratch, and the next message is stored with a NULL [cat_id]. *)
Lemma orphan_task_reachable :
  ¬ ref_integrity
      (w_db (session initial_world
               [(all_ok, UMessage (text_message 7 1 (add_to_prefix ++ py "Work")));
                (all_ok, UMessage (text_message 7 2 (py "buy milk")))])).
Proof. vm_compute. intros H. inversion H as [|? ? Hin]. inversion Hin. Qed.

(** The same happens with a stale id: a task filed under a category that
    was deleted after the chat had opened it references no category. *)
Lemma dangling_task_reachable :
  let db := w_db (session initial_world stale_session) in
  categories db = [] ∧ t_cat_id <$> tasks db = [Some 1] ∧ ¬ ref_integrity db.
Proof.
  vm_compute. split_and!; [done | done |].
  intros H. inversion H as [|? ? Hin]. inversion Hin.
Qed.

(** C1 (amended): from a fresh database, after any sequence of updates in
    which every run of [save_task] finds in scratch the id of a category
    that exists at that moment, every stored task references an existing
    category; whatever the transport does. *)
Theorem guarded_sessions_keep_integrity us :
  guarded initial_world us → ref_integrity (w_db (session initial_world us)).
Proof.
  assert (Hgen : ∀ w, ref_integrity (w_db w) → guarded w us →
                      ref_integrity (w_db (session w us))).
  { induction us as [|[net u] us IH]; intros w Hri Hg; simpl in *; [done |].
    destruct Hg as [Hok Hg]. apply IH; [| done]. by apply step_integrity. }
  apply Hgen. constructor.
Qed.

Lemma guarded_sessions_keep_integrity_witness :
  guarded initial_world work_session
  ∧ ref_integrity (w_db (session initial_world work_session))
  ∧ tasks (w_db (session initial_world work_session)) ≠ [].
Proof.
  assert (Hg : guarded initial_world work_session).
  { apply (bool_decide_unpack _). vm_compute. reflexivity. }
  split; [exact Hg |].
  split; [exact (guarded_sessions_keep_integrity work_session Hg) |].
  vm_compute. discriminate.
Defined.

(** ** Renaming a category *)

Section rename.
Implicit Types (m : Message) (net : nat → bool) (h : HState).

Lemma rename_clash_spec new i cs :
  rename_clash new i cs = true ↔
  is_Some new ∧ i ∈ c_id <$> cs ∧ ∃ c, c ∈ cs ∧ c_id c ≠ i ∧ c_name c = new.
Proof.
  unfold rename_clash. destruct new as [n|].
  - rewrite andb_true_iff, !bool_decide_eq_true, !Exists_exists. split.
    + intros [(c & Hc & Hi) (c' & Hc' & Hn & Hne)]. split_and!.
      * by eexists.
      * subst i. by apply list_elem_of_fmap_2.
      * eauto.
    + intros (_ & Hi & c' & Hc' & Hne & Hn).
      apply list_elem_of_fmap in Hi as (c & -> & Hc). split; eauto.
  - split; [done |]. by intros [[? ?] _].
Qed.

Lemma save_renamed_category_rejected m net h i :
  fsm_data (h_ctx h) !! RENAME_CAT_ID = Some i →
  rename_clash (m_text m) i (categories (h_db h)) = true →
  save_renamed_category m net h = (Raised IntegrityError, h).
Proof.
  intros Hi Hclash. unfold save_renamed_category, update_category_name. unfold_M.
  by rewrite Hi, Hclash.
Qed.

Lemma save_renamed_category_applied m net h i :
  fsm_data (h_ctx h) !! RENAME_CAT_ID = Some i →
  rename_clash (m_text m) i (categories (h_db h)) = false →
  h_ctx (save_renamed_category m net h).2 = idle_ctx
  ∧ h_db (save_renamed_category m net h).2
    = {| categories := set_name (m_text m) i <$> categories (h_db h);
         tasks := tasks (h_db h) |}.
Proof.
  intros Hi Hclash. unfold save_renamed_category, update_category_name. unfold_M.
  rewrite Hi, Hclash. simpl. by ask_net net.
Qed.

End rename.

(** C2 (as stated) fails: with categories Work (1) and Home (2) stored,
    renaming Home to the text Work is rejected by the UNIQUE constraint of
    [categories.name]: the handler raises, the store keeps both names and
    the chat stays in the rename state. *)
Lemma rename_to_taken_name_rejected :
  let u := UMessage (text_message 7 6 (py "Work")) in
  route (fsm_state (ctx_of rename_world (7, 7))) u
    = Some (I_save_renamed_category (text_message 7 6 (py "Work")))
  ∧ select_category_names (w_db rename_world) = [Some (py "Work"); Some (py "Home")]
  ∧ outcome_of all_ok rename_world u = Raised IntegrityError
  ∧ select_category_names (w_db (step all_ok rename_world u))
    = [Some (py "Work"); Some (py "Home")]
  ∧ fsm_state (ctx_of (step all_ok rename_world u) (7, 7)) = Some waiting_rename_category.
Proof. vm_compute. done. Qed.

(** C2 (amended): the rename handler performs no uniqueness check of its
    own and hands the text to the store. For an existing target category:
    when no other category holds the text, the target's name becomes the
    text, every other category is left as it was and the conversation
    state is cleared; when another category holds it, the store's UNIQUE
    constraint rejects the update, the handler raises and nothing (store,
    conversation state, log) changes. Either way text names stay unique. *)
Theorem rename_checked_by_store_only m net h i :
  store_wf (h_db h) →
  fsm_data (h_ctx h) !! RENAME_CAT_ID = Some i →
  i ∈ c_id <$> categories (h_db h) →
  let taken := is_Some (m_text m)
               ∧ ∃ c, c ∈ categories (h_db h) ∧ c_id c ≠ i ∧ c_name c = m_text m in
  let r := save_renamed_category m net h in
  (taken → r = (Raised IntegrityError, h))
  ∧ (¬ taken →
       h_ctx r.2 = idle_ctx
       ∧ c_id <$> categories (h_db r.2) = c_id <$> categories (h_db h)
       ∧ ∀ c, c ∈ categories (h_db h) →
           (c_id c = i → {| c_id := i; c_name := m_text m |} ∈ categories (h_db r.2))
           ∧ (c_id c ≠ i → c ∈ categories (h_db r.2)))
  ∧ names_unique (categories (h_db r.2)).
Proof.
  intros Hwf Hi Hin taken r. subst r.
  destruct (rename_clash (m_text m) i (categories (h_db h))) eqn:Hclash.
  - rewrite (save_renamed_category_rejected m net h i Hi Hclash). simpl.
    split_and!; [done | | by apply Hwf].
    intros Hnot. exfalso. apply Hnot. apply rename_clash_spec in Hclash.
    subst taken. tauto.
  - destruct (save_renamed_category_applied m net h i Hi Hclash) as [Hctx Hdb].
    split_and!.
    + intros Htaken. exfalso. apply not_true_iff_false in Hclash. apply Hclash.
      apply rename_clash_spec. subst taken. tauto.
    + intros _. rewrite Hctx, Hdb. simpl. split_and!; [done | apply set_name_ids |].
      intros c Hc. split; intros Hid.
      * apply list_elem_of_fmap. exists c. split; [| done].
        unfold set_name. rewrite decide_True by done. by rewrite Hid.
      * apply list_elem_of_fmap. exists c. split; [| done].
        unfold set_name. by rewrite decide_False.
    + assert (Hwf' : store_wf (h_db (save_renamed_category m net h).2)).
      { eapply (update_category_name_wf (m_text m) (Some i)); [exact Hwf |].
        rewrite Hdb. unfold update_category_name. by rewrite Hclash. }
      apply Hwf'.
Qed.

Lemma rename_checked_by_store_only_witness :
  store_wf (h_db rename_state)
  ∧ names_unique
      (categories (h_db (save_renamed_category (text_message 7 6 (py "House")) offline
                           rename_state).2)).
Proof.
  assert (Hwf : store_wf (h_db rename_state)).
  { apply (bool_decide_unpack _). vm_compute. reflexivity. }
  split; [exact Hwf |].
  refine (proj2 (proj2 (rename_checked_by_store_only
                          (text_message 7 6 (py "House")) offline rename_state 2
                          Hwf _ _))).
  - vm_compute. reflexivity.
  - apply (bool_decide_unpack _). vm_compute. reflexivity.
Defined.

(** ** Conversation state and transport failures *)

Section transport.
Implicit Types (net : nat → bool) (h : HState).

Lemma show_category_ctx m net net' h :
  h_ctx (show_category m net h).2 = h_ctx (show_category m net' h).2.
Proof.
  destruct (select_category_id (requested_name m) (h_db h)) as [cat|] eqn:Hsel.
  - destruct (show_category_found m net h cat Hsel) as (? & -> & _).
    by destruct (show_category_found m net' h cat Hsel) as (? & -> & _).
  - by rewrite !show_category_missing.
Qed.

Lemma run_ctx_transport i net h :
  if prompts_first i && negb (net (length (h_out h)))
  then fsm_state (h_ctx (run i net h).2) = fsm_state (h_ctx h)
  else h_ctx (run i net h).2 = h_ctx (run i all_ok h).2.
Proof.
  destruct i; simpl; try apply show_category_ctx; unfold all_ok.
  - unfold cmd_start. unfold_M. by ask_net net.
  - unfold add_cat_init. unfold_M. by ask_net net.
  - unfold save_category. unfold_M. by ask_net net.
  - unfold category_settings. unfold_M. by ask_net net.
  - unfold rename_cat_init. unfold_M. by ask_net net.
  - unfold save_renamed_category. unfold_M.
    destruct (update_category_name _ _ _); simpl; [done |]. by ask_net net.
  - unfold add_task_init. unfold_M. by ask_net net.
  - unfold save_task. unfold_M. by ask_net net.
  - unfold delete_task. unfold_M. by ask_net net.
  - unfold delete_category. unfold_M. by ask_net net.
Qed.

Lemma step_fsm net w u :
  w_fsm (step net w u)
  = match route (fsm_state (ctx_of w (key_of u))) u with
    | Some i =>
        <[key_of u :=
            h_ctx (run i net {| h_ctx := ctx_of w (key_of u); h_db := w_db w;
                                h_out := [] |}).2]> (w_fsm w)
    | None => w_fsm w
    end.
Proof.
  unfold step, feed_update. destruct (route _ u); [| done].
  by destruct (run _ _ _).
Qed.

Lemma ctx_of_step_own net w u i :
  route (fsm_state (ctx_of w (key_of u))) u = Some i →
  ctx_of (step net w u) (key_of u)
  = h_ctx (run i net {| h_ctx := ctx_of w (key_of u); h_db := w_db w; h_out := [] |}).2.
Proof.
  intros Hr. unfold ctx_of at 1. rewrite step_fsm, Hr, lookup_insert_eq. done.
Qed.

Lemma prompt_delivered_enters_state i net h :
  prompts_first i = true → net (length (h_out h)) = true →
  fsm_state (h_ctx (run i net h).2) = target_state i.
Proof.
  intros Hp Hnet. destruct i; try discriminate; simpl.
  - unfold add_cat_init. unfold_M. by rewrite Hnet.
  - unfold rename_cat_init. unfold_M. rewrite Hnet. simpl. by ask_net net.
  - unfold add_task_init. unfold_M. by rewrite Hnet.
Qed.

End transport.

(** C3 (as stated) fails: when the prompt of the new-category button cannot
    be sent, the chat never enters the state waiting for the name, although
    it does when the prompt goes through. *)
Lemma failed_prompt_blocks_transition :
  let u := UMessage (text_message 7 1 new_category_text) in
  fsm_state (ctx_of (step all_ok initial_world u) (7, 7)) = Some waiting_new_category_name
  ∧ fsm_state (ctx_of (step offline initial_world u) (7, 7)) = None.
Proof. vm_compute. done. Qed.

(** C3 (amended): a transport failure never alters a conversation-state
    change already made, and for every handler but the three that open a
    dialogue the resulting conversation state of every chat is the same
    whether outbound calls succeed or fail. The three prompting handlers
    ([add_cat_init], [rename_cat_init], [add_task_init]) send their prompt
    first: when that send fails the chat stays in the state it was in, and
    when it succeeds the state change happens whatever later calls do. *)
Theorem state_change_vs_transport net w u :
  match route (fsm_state (ctx_of w (key_of u))) u with
  | Some i =>
      if prompts_first i && negb (net 0%nat)
      then fsm_state (ctx_of (step net w u) (key_of u))
           = fsm_state (ctx_of w (key_of u))
      else w_fsm (step net w u) = w_fsm (step all_ok w u)
  | None => step net w u = w
  end.
Proof.
  destruct (route (fsm_state (ctx_of w (key_of u))) u) as [i|] eqn:Hr.
  - pose proof (run_ctx_transport i net
                  {| h_ctx := ctx_of w (key_of u); h_db := w_db w; h_out := [] |}) as H.
    simpl in H. destruct (prompts_first i && negb (net 0%nat)).
    + by rewrite (ctx_of_step_own net w u i Hr).
    + rewrite !step_fsm, Hr. by rewrite H.
  - unfold step, feed_update. by rewrite Hr.
Qed.

(** ** Deleting a category *)

Lemma delete_category_db q id net h :
  h_db (delete_category q id net h).2
  = delete_category_row id (delete_tasks_by_category id (h_db h)).
Proof. unfold delete_category. unfold_M. by ask_net net. Qed.

(** C4: the category-delete callback for id [c] first deletes every task
    whose [cat_id] is [c] and then the category row [c]; afterwards no
    stored task references [c] and no category has id [c], whatever the
    transport does with the acknowledgements. *)
Theorem delete_category_cascades net w q c :
  q_data q = CategoryCB DELETE_CAT c →
  let db' := w_db (step net w (UCallback q)) in
  db' = delete_category_row c (delete_tasks_by_category c (w_db w))
  ∧ select_tasks c db' = []
  ∧ Forall (λ t, t_cat_id t ≠ Some c) (tasks db')
  ∧ c ∉ c_id <$> categories db'.
Proof.
  intros Hq db'.
  assert (Hdb : db' = delete_category_row c (delete_tasks_by_category c (w_db w))).
  { subst db'. rewrite step_db. simpl. unfold route_callback. rewrite Hq. simpl.
    apply delete_category_db. }
  assert (Hall : Forall (λ t, t_cat_id t ≠ Some c) (tasks db')).
  { rewrite Hdb. simpl. apply Forall_forall.
    by intros t [Hne _]%list_elem_of_filter. }
  split_and!; [done | | done |].
  - unfold select_tasks. apply elem_of_nil_inv. intros t [Heq Ht]%list_elem_of_filter.
    rewrite Forall_forall in Hall. by apply (Hall t).
  - rewrite Hdb. simpl. intros (x & Hid & [Hne _]%list_elem_of_filter)%list_elem_of_fmap.
    by apply Hne.
Qed.

Lemma delete_category_cascades_witness :
  let w := session initial_world work_session in
  let db' := w_db (step offline w (UCallback (tap 7 9 (CategoryCB DELETE_CAT 1)))) in
  tasks (w_db w) ≠ [] ∧ select_tasks 1 db' = [] ∧ 1 ∉ c_id <$> categories db'.
Proof.
  intros w db'. split; [vm_compute; discriminate |].
  destruct (delete_category_cascades offline w
              (tap 7 9 (CategoryCB DELETE_CAT 1)) 1 eq_refl) as (_ & H1 & _ & H2).
  split; [exact H1 | exact H2].
Defined.

(** ** Creating a category *)

Section create.
Implicit Types (m : Message) (net : nat → bool) (h : HState).

Lemma save_category_db m net h :
  h_db (save_category m net h).2 = insert_or_ignore_category (m_text m) (h_db h).
Proof. unfold save_category. unfold_M. by ask_net net. Qed.

Lemma save_category_outcome m net h :
  (save_category m net h).1
  = if net (length (h_out h)) then Returned () else Raised TransportError.
Proof. unfold save_category. unfold_M. by ask_net net. Qed.

Lemma insert_or_ignore_category_held n s :
  name_held n (categories (insert_or_ignore_category (Some n) s)) = true.
Proof.
  unfold insert_or_ignore_category.
  destruct (name_held n (categories s)) eqn:Hheld; [done |]. simpl.
  apply name_held_spec. eexists. split; [apply elem_of_app; right; constructor |].
  done.
Qed.

Lemma insert_or_ignore_category_idem n s :
  insert_or_ignore_category (Some n)
    (insert_or_ignore_category (Some n) s)
  = insert_or_ignore_category (Some n) s.
Proof.
  unfold insert_or_ignore_category at 1.
  by rewrite insert_or_ignore_category_held.
Qed.

(** In a well-formed store a text name that is held is held once. *)
Lemma held_once n s :
  store_wf s → name_held n (categories s) = true →
  length (filter (λ c, c_name c = Some n) (categories s)) = 1%nat.
Proof.
  intros (Hids & _ & Hn) Hheld.
  apply name_held_spec in Hheld as (c & Hc & Hname).
  pose proof (ascending_NoDup _ (ascending_filter c_id
                (λ c, c_name c = Some n) _ Hids)) as Hnd.
  rewrite names_unique_alt in Hn.
  destruct (filter _ (categories s)) as [|a [|b l]] eqn:Hf.
  - exfalso. eapply elem_of_nil. rewrite <- Hf. apply list_elem_of_filter. eauto.
  - done.
  - exfalso.
    assert (Ha : a ∈ filter (λ c, c_name c = Some n) (categories s))
      by (rewrite Hf; repeat constructor).
    assert (Hb : b ∈ filter (λ c, c_name c = Some n) (categories s))
      by (rewrite Hf; repeat constructor).
    apply list_elem_of_filter in Ha as [Han Ha].
    apply list_elem_of_filter in Hb as [Hbn Hb].
    assert (c_id a = c_id b) as Heq by (apply Hn; [done | done | by eexists | congruence]).
    simpl in Hnd. rewrite Heq in Hnd. apply NoDup_cons in Hnd as [Hnin _].
    apply Hnin. constructor.
Qed.

End create.

(** C5: submitting the same text [n] twice to [save_category] leaves
    exactly one stored category named [n]; the second submission does not
    change the store and does not fail on the name (it can only fail when
    its confirmation message cannot be delivered). *)
Theorem create_category_twice_coalesces n m1 m2 net1 net2 h :
  store_wf (h_db h) →
  m_text m1 = Some n → m_text m2 = Some n →
  let h1 := (save_category m1 net1 h).2 in
  let r2 := save_category m2 net2 h1 in
  h_db r2.2 = h_db h1
  ∧ length (filter (λ c, c_name c = Some n) (categories (h_db r2.2))) = 1%nat
  ∧ r2.1 ≠ Raised IntegrityError
  ∧ (net2 (length (h_out h1)) = true → r2.1 = Returned ()).
Proof.
  intros Hwf H1 H2 h1 r2. subst r2 h1.
  rewrite !save_category_db, H1, H2, insert_or_ignore_category_idem.
  rewrite save_category_outcome.
  split_and!; [done | | by destruct (net2 _) | by intros ->].
  apply held_once; [by apply insert_or_ignore_category_wf |].
  apply insert_or_ignore_category_held.
Qed.

Lemma create_category_twice_coalesces_witness :
  let h := {| h_ctx := idle_ctx; h_db := w_db rename_world; h_out := [] |} in
  let m := text_message 7 8 (py "Garden") in
  store_wf (h_db h)
  ∧ length (filter (λ c, c_name c = Some (py "Garden"))
              (categories (h_db (save_category m offline
                                   (save_category m all_ok h).2).2))) = 1%nat.
Proof.
  intros h m.
  assert (Hwf : store_wf (h_db h)).
  { apply (bool_decide_unpack _). vm_compute. reflexivity. }
  split; [exact Hwf |].
  exact (proj1 (proj2 (create_category_twice_coalesces (py "Garden") m m all_ok offline h
                         Hwf eq_refl eq_refl))).
Defined.

(** C9: renaming leaves the task table exactly as it was (no task deleted,
    none reassigned) and changes no category id, whether the rename is
    applied or rejected and whatever the transport does. *)
Theorem rename_leaves_tasks m net h :
  tasks (h_db (save_renamed_category m net h).2) = tasks (h_db h)
  ∧ c_id <$> categories (h_db (save_renamed_category m net h).2)
    = c_id <$> categories (h_db h).
Proof.
  destruct (save_renamed_category_db m net h) as [-> | Hupd]; [done |].
  unfold update_category_name in Hupd.
  destruct (fsm_data (h_ctx h) !! RENAME_CAT_ID) as [i|].
  - destruct (rename_clash _ _ _); [done |].
    injection Hupd as Hupd. rewrite <- Hupd. simpl. by rewrite set_name_ids.
  - injection Hupd as Hupd. by rewrite <- Hupd.
Qed.

(** ** Opening a category: the replay *)

Section open_category.
Implicit Types (net : nat → bool) (w : World) (m : Message).

Lemma log_of_run net w u i :
  route (fsm_state (ctx_of w (key_of u))) u = Some i →
  log_of net w u
  = h_out (run i net {| h_ctx := ctx_of w (key_of u); h_db := w_db w; h_out := [] |}).2.
Proof.
  intros Hr. unfold log_of, feed_update. rewrite Hr. by destruct (run _ _ _).
Qed.

Lemma open_log net w m cat :
  opens w m cat →
  ∃ tail,
    log_of net w (UMessage m)
    = replayed (m_chat m) net 0 (select_tasks cat (w_db w)) ++ tail
    ∧ copy_calls tail = [].
Proof.
  intros [Hr Hsel]. rewrite (log_of_run net w (UMessage m) _ Hr). simpl.
  destruct (show_category_found m net
              {| h_ctx := ctx_of w (m_chat m, m_user m); h_db := w_db w; h_out := [] |}
              cat Hsel) as (tail & -> & Htail).
  exists tail. done.
Qed.

Lemma open_copy_calls net w m cat :
  opens w m cat →
  copy_calls (log_of net w (UMessage m))
  = replayed (m_chat m) net 0 (select_tasks cat (w_db w)).
Proof.
  intros Ho. destruct (open_log net w m cat Ho) as (tail & -> & Htail).
  unfold copy_calls in *. rewrite filter_app, Htail, app_nil_r.
  apply replayed_all_copies.
Qed.

Lemma length_replayed chat net base rows :
  length (replayed chat net base rows) = length rows.
Proof. unfold replayed. apply length_imap. Qed.

End open_category.

(** C6: opening a category that holds N tasks issues one replay call per
    task, in the order of the cursor, so N calls and never more; the k-th
    call meets the outcome the transport has for it, and a failed call is
    followed by the calls for all the remaining tasks. *)
Theorem replay_attempts_every_task net w m cat :
  opens w m cat →
  let rows := select_tasks cat (w_db w) in
  let copies := copy_calls (log_of net w (UMessage m)) in
  copies.*1 = copy_of (m_chat m) <$> rows
  ∧ copies.*2 = net <$> seq 0 (length rows)
  ∧ (length copies ≤ length rows)%nat.
Proof.
  intros Ho rows copies. subst copies rows. rewrite (open_copy_calls net w m cat Ho).
  split_and!.
  - apply replayed_calls.
  - apply replayed_outcomes.
  - by rewrite length_replayed.
Qed.

Lemma replay_attempts_every_task_witness :
  let w := session initial_world replay_session in
  let m := text_message 7 9 (folder_prefix ++ py "Work") in
  opens w m 1
  ∧ length (select_tasks 1 (w_db w)) = 3%nat
  ∧ (copy_calls (log_of fails_second w (UMessage m))).*2 = [true; false; true].
Proof.
  intros w m.
  assert (Ho : opens w m 1) by (vm_compute; done).
  split; [exact Ho |]. split; [vm_compute; reflexivity |].
  destruct (replay_attempts_every_task fails_second w m 1 Ho) as (_ & H2 & _).
  rewrite H2. vm_compute. reflexivity.
Defined.

(** C7: in a well-formed store, opening a category replays exactly the
    tasks stored under it, one copy each, in strictly increasing task-id
    order. *)
Theorem replay_in_ascending_id_order net w m cat :
  store_wf (w_db w) →
  opens w m cat →
  ∃ rows,
    (copy_calls (log_of net w (UMessage m))).*1 = copy_of (m_chat m) <$> rows
    ∧ StronglySorted Z.lt (t_id <$> rows)
    ∧ NoDup rows
    ∧ ∀ t, t ∈ rows ↔ t ∈ tasks (w_db w) ∧ t_cat_id t = Some cat.
Proof.
  intros (_ & Hts & _) Ho. exists (select_tasks cat (w_db w)).
  assert (Hs : StronglySorted Z.lt (t_id <$> select_tasks cat (w_db w)))
    by by apply ascending_filter.
  split_and!.
  - rewrite (open_copy_calls net w m cat Ho). apply replayed_calls.
  - done.
  - eapply NoDup_fmap_1, ascending_NoDup, Hs.
  - intros t. unfold select_tasks. rewrite list_elem_of_filter. tauto.
Qed.

Lemma replay_in_ascending_id_order_witness :
  let w := session initial_world replay_session in
  let m := text_message 7 9 (folder_prefix ++ py "Work") in
  (store_wf (w_db w) ∧ opens w m 1)
  ∧ t_id <$> select_tasks 1 (w_db w) = [1; 3; 4]
  ∧ ∃ rows,
      (copy_calls (log_of fails_second w (UMessage m))).*1 = copy_of 7 <$> rows
      ∧ StronglySorted Z.lt (t_id <$> rows)
      ∧ NoDup rows
      ∧ ∀ t, t ∈ rows ↔ t ∈ tasks (w_db w) ∧ t_cat_id t = Some 1.
Proof.
  intros w m.
  assert (Hwf : store_wf (w_db w)).
  { apply (bool_decide_unpack _). vm_compute. reflexivity. }
  assert (Ho : opens w m 1) by (vm_compute; done).
  split; [exact (conj Hwf Ho) |]. split; [vm_compute; reflexivity |].
  exact (replay_in_ascending_id_order fails_second w m 1 Hwf Ho).
Defined.

(** ** The reset command and the main menu *)

Lemma concat_adjust_go {B} (size : nat) (l : list B) : ∀ room row,
  concat (adjust_go size room row l) = rev row ++ l.
Proof.
  induction l as [|b l IH]; intros room row; simpl.
  - destruct row; simpl; by rewrite ?app_nil_r.
  - destruct room; simpl; rewrite IH; simpl; [done |].
    by rewrite <- app_assoc.
Qed.

Lemma concat_adjust {B} (size : nat) (l : list B) : concat (adjust size l) = l.
Proof. unfold adjust. by rewrite concat_adjust_go. Qed.

Lemma main_menu_buttons db :
  reply_buttons (KeyboardFactory.main_menu db)
  = (folder_label <$> select_category_names db) ++ [new_category_text].
Proof. unfold KeyboardFactory.main_menu. simpl. apply concat_adjust. Qed.

Lemma reset_routes st m :
  m_text m = Some cancel_text ∨ m_is_start m = true →
  route_message st m = Some (I_cmd_start m).
Proof.
  intros H. unfold route_message.
  assert (text_is cancel_text m || m_is_start m = true) as ->; [| done].
  apply orb_true_iff. destruct H as [H|H]; [left | by right].
  unfold text_is. by apply bool_decide_eq_true.
Qed.

(** C8: whatever state and scratch data the chat has, the reset command
    (the start command or the literal cancel text) leaves the chat idle
    with empty scratch, does not touch the store, and sends one main menu
    whose buttons are exactly: for each category of the store as it is at
    that moment, in order, the folder glyph U+1F4C1, a space and the
    category's name (the word None for a NULL name); then the button
    U+2795 New Category. *)
Theorem reset_from_any_state net w m :
  m_text m = Some cancel_text ∨ m_is_start m = true →
  let w' := step net w (UMessage m) in
  ctx_of w' (m_chat m, m_user m) = idle_ctx
  ∧ w_db w' = w_db w
  ∧ ∃ kb,
      log_of net w (UMessage m)
      = [(SendMessage (m_chat m) (py "Main Menu:") kb, net 0%nat)]
      ∧ reply_buttons kb
        = ((λ c, 0x1F4C1 :: 32 ::
                 match c_name c with
                 | Some n => n
                 | None => [78; 111; 110; 101]
                 end) <$> categories (w_db w'))
          ++ [[0x2795; 32; 78; 101; 119; 32; 67; 97; 116; 101; 103; 111; 114; 121]].
Proof.
  intros Hreset w'.
  pose proof (reset_routes (fsm_state (ctx_of w (m_chat m, m_user m))) m Hreset) as Hr.
  assert (Hr' : route (fsm_state (ctx_of w (key_of (UMessage m)))) (UMessage m)
                = Some (I_cmd_start m)) by exact Hr.
  assert (Hdb : w_db w' = w_db w).
  { subst w'. rewrite step_db, Hr'. simpl. unfold cmd_start. unfold_M. by ask_net net. }
  split_and!.
  - subst w'. change (m_chat m, m_user m) with (key_of (UMessage m)).
    rewrite (ctx_of_step_own net w _ _ Hr'). simpl.
    unfold cmd_start. unfold_M. by ask_net net.
  - done.
  - exists (KeyboardFactory.main_menu (w_db w)). split.
    + rewrite (log_of_run net w _ _ Hr'). simpl.
      unfold cmd_start. unfold_M. by ask_net net.
    + rewrite Hdb, main_menu_buttons. unfold select_category_names. f_equal.
      rewrite <- list_fmap_compose. apply list_fmap_ext. intros i c _. simpl.
      by destruct (c_name c).
Qed.

Lemma reset_from_any_state_witness :
  let m := text_message 7 6 cancel_text in
  fsm_state (ctx_of rename_world (7, 7)) = Some waiting_rename_category
  ∧ ctx_of (step offline rename_world (UMessage m)) (7, 7) = idle_ctx
  ∧ ∃ kb,
      log_of offline rename_world (UMessage m)
      = [(SendMessage 7 (py "Main Menu:") kb, false)]
      ∧ reply_buttons kb
        = [[0x1F4C1; 32; 87; 111; 114; 107];
           [0x1F4C1; 32; 72; 111; 109; 101];
           [0x2795; 32; 78; 101; 119; 32; 67; 97; 116; 101; 103; 111; 114; 121]].
Proof.
  intros m. split; [vm_compute; reflexivity |].
  destruct (reset_from_any_state offline rename_world m (or_introl eq_refl))
    as (Hctx & _ & kb & Hlog & Hkb).
  split; [exact Hctx |]. exists kb. split; [exact Hlog |].
  rewrite Hkb. vm_compute. reflexivity.
Defined.

(** ** Menu labels and the open-category lookup *)

Lemma requested_name_of_label chat id name :
  requested_name (text_message chat id (folder_label name)) = fmt name.
Proof. reflexivity. Qed.

(** For a category whose name is a text, the text of its own main-menu
    button resolves to its id. *)
Lemma menu_label_resolves_text_name s c n chat id :
  store_wf s → c ∈ categories s → c_name c = Some n →
  select_category_id
    (requested_name (text_message chat id (folder_label (c_name c)))) s
  = Some (c_id c).
Proof.
  intros (_ & _ & Hn) Hc Hname. rewrite requested_name_of_label, Hname. simpl.
  unfold select_category_id. rewrite names_unique_alt in Hn.
  destruct (filter (λ c0, c_name c0 = Some n) (categories s)) as [|a l] eqn:Hf.
  - exfalso. eapply elem_of_nil. rewrite <- Hf. apply list_elem_of_filter. eauto.
  - simpl. f_equal.
    assert (Ha : a ∈ filter (λ c0, c_name c0 = Some n) (categories s))
      by (rewrite Hf; constructor).
    apply list_elem_of_filter in Ha as [Han Ha].
    apply Hn; [done | done | by eexists | congruence].
Qed.

(** C10 fails on a category without a text name. A photo sent while the
    bot waits for a category name is stored as a category whose name is
    NULL; the main menu labels it with the folder glyph and the word None;
    sending that label back runs [show_category], which looks for a
    category named None, finds none and drops the event: no replay, no
    reply, no scratch update. *)
Theorem null_named_category_cannot_be_reopened :
  let w := session initial_world
             [(all_ok, UMessage (text_message 7 1 new_category_text));
              (all_ok, UMessage (media_message 7 2))] in
  let label := folder_label None in
  let m := text_message 7 3 label in
  categories (w_db w) = [{| c_id := 1; c_name := None |}]
  ∧ reply_buttons (KeyboardFactory.main_menu (w_db w)) = [label; new_category_text]
  ∧ label = glyph_folder :: py " None"
  ∧ route (fsm_state (ctx_of w (7, 7))) (UMessage m) = Some (I_show_category m)
  ∧ select_category_id (requested_name m) (w_db w) = None
  ∧ feed_update all_ok w (UMessage m)
    = ({| w_db := w_db w; w_fsm := <[(7, 7) := idle_ctx]> (w_fsm w) |}, [], Returned ()).
Proof. vm_compute. done. Qed.

(** * Further properties of the handlers *)

(** ** Shared facts about one dispatcher step *)

Lemma ctx_of_step net w u k :
  ctx_of (step net w u) k
  = match route (fsm_state (ctx_of w (key_of u))) u with
    | Some i =>
        if decide (k = key_of u)
        then h_ctx (run i net {| h_ctx := ctx_of w (key_of u); h_db := w_db w;
                                 h_out := [] |}).2
        else ctx_of w k
    | None => ctx_of w k
    end.
Proof.
  unfold ctx_of at 1. rewrite step_fsm. destruct (route _ u); [| done].
  destruct (decide (k = key_of u)) as [->|Hne].
  - by rewrite lookup_insert_eq.
  - by rewrite lookup_insert_ne.
Qed.

Lemma outcome_of_run net w u i :
  route (fsm_state (ctx_of w (key_of u))) u = Some i →
  outcome_of net w u
  = (run i net {| h_ctx := ctx_of w (key_of u); h_db := w_db w; h_out := [] |}).1.
Proof.
  intros Hr. unfold outcome_of, feed_update. rewrite Hr. by destruct (run _ _ _).
Qed.

Lemma run_db_transport i net h : h_db (run i net h).2 = h_db (run i all_ok h).2.
Proof.
  destruct i; simpl; unfold all_ok.
  - unfold cmd_start. unfold_M. by ask_net net.
  - unfold add_cat_init. unfold_M. by ask_net net.
  - unfold save_category. unfold_M. by ask_net net.
  - by rewrite !show_category_db.
  - unfold category_settings. unfold_M. by ask_net net.
  - unfold rename_cat_init. unfold_M. by ask_net net.
  - unfold save_renamed_category. unfold_M.
    destruct (update_category_name _ _ _); simpl; [done |]. by ask_net net.
  - unfold add_task_init. unfold_M. by ask_net net.
  - unfold save_task. unfold_M. by ask_net net.
  - unfold delete_task. unfold_M. by ask_net net.
  - unfold delete_category. unfold_M. by ask_net net.
Qed.

(** ** The store never depends on the transport *)

(** Every handler issues its SQL statements before its first platform
    call, so what an update does to the store is the same whether the
    platform accepts or refuses any of the calls. *)
Theorem store_independent_of_transport net w u :
  w_db (step net w u) = w_db (step all_ok w u).
Proof.
  rewrite !step_db. destruct (route _ u); [| done]. apply run_db_transport.
Qed.

(** ** Saving a task *)

(** The preview stored with a task is never empty and never longer than
    twenty code points; it is the head of the text when the message has
    one. *)
Theorem preview_bounds m :
  (0 < length (preview_of m) ≤ 20)%nat
  ∧ ∀ c t, m_text m = Some (c :: t) → preview_of m = take 20 (c :: t).
Proof.
  unfold preview_of, py_or. split.
  - assert (Hlen : ∀ c (t : list Z), (0 < length (take 20 (c :: t)) ≤ 20)%nat).
    { intros c t. rewrite length_take. simpl length. lia. }
    destruct (m_text m) as [[|c t]|]; simpl truthy; cbv iota;
      try (destruct (m_caption m) as [[|c' t']|]; simpl truthy; cbv iota);
      apply Hlen.
  - intros c t ->. done.
Qed.

Lemma preview_bounds_witness :
  preview_of (text_message 7 1 (py "a text that is longer than twenty code points"))
  = py "a text that is longe".
Proof.
  rewrite (proj2 (preview_bounds
                    (text_message 7 1 (py "a text that is longer than twenty code points")))
             97 (py " text that is longer than twenty code points") eq_refl).
  vm_compute. reflexivity.
Defined.

(** [save_task] appends exactly one row to the task table: its id is larger
    than every id in use, it carries the scratch value of
    [current_cat_id] and the chat and message id of the content; the
    rows already stored and the categories are untouched and the
    conversation state is cleared, whatever the transport does. *)
Theorem save_task_appends_fresh m net h :
  ∃ t,
    tasks (h_db (save_task m net h).2) = tasks (h_db h) ++ [t]
    ∧ Forall (λ t0, t_id t0 < t_id t) (tasks (h_db h))
    ∧ t_cat_id t = fsm_data (h_ctx h) !! CURRENT_CAT_ID
    ∧ (t_chat_id t, t_msg_id t, t_preview t) = (m_chat m, m_id m, preview_of m)
    ∧ categories (h_db (save_task m net h).2) = categories (h_db h)
    ∧ h_ctx (save_task m net h).2 = idle_ctx.
Proof.
  eexists. unfold save_task. unfold_M.
  split_and!; [by ask_net net | | | | by ask_net net | by ask_net net]; simpl.
  - pose proof (next_rowid_fresh (t_id <$> tasks (h_db h))) as Hf.
    rewrite Forall_fmap in Hf. exact Hf.
  - done.
  - done.
Qed.

(** ** Deleting a task *)

(** The task-delete callback removes the task with the given id and no
    other row; categories and every chat's conversation state stay as they
    were, and a second tap on the same button changes nothing more. *)
Theorem delete_task_removes_only_target net w q id :
  q_data q = TaskCB DELETE_TASK id →
  let w' := step net w (UCallback q) in
  (∀ t, t ∈ tasks (w_db w') ↔ t ∈ tasks (w_db w) ∧ t_id t ≠ id)
  ∧ categories (w_db w') = categories (w_db w)
  ∧ (∀ k, ctx_of w' k = ctx_of w k)
  ∧ w_db (step net w' (UCallback q)) = w_db w'.
Proof.
  intros Hq w'.
  assert (Hr : ∀ st, route st (UCallback q) = Some (I_delete_task q id)).
  { intros st. simpl. unfold route_callback. by rewrite Hq. }
  assert (Hdb : ∀ w0, w_db (step net w0 (UCallback q)) = delete_task_row id (w_db w0)).
  { intros w0. rewrite step_db, Hr. simpl. unfold delete_task. unfold_M. by ask_net net. }
  split_and!.
  - intros t. subst w'. rewrite Hdb. simpl. rewrite list_elem_of_filter. tauto.
  - subst w'. by rewrite Hdb.
  - intros k. subst w'. rewrite ctx_of_step, Hr.
    destruct (decide _) as [->|]; [| done]. simpl.
    unfold delete_task. unfold_M. by ask_net net.
  - rewrite Hdb. subst w'. rewrite Hdb. unfold delete_task_row. simpl. f_equal.
    apply list_filter_filter_l. tauto.
Qed.

Lemma delete_task_removes_only_target_witness :
  let w := session initial_world replay_session in
  let w' := step offline w (UCallback (tap 7 9 (TaskCB DELETE_TASK 3))) in
  t_id <$> tasks (w_db w) = [1; 2; 3; 4]
  ∧ t_id <$> tasks (w_db w') = [1; 2; 4]
  ∧ ∀ t, t ∈ tasks (w_db w') ↔ t ∈ tasks (w_db w) ∧ t_id t ≠ 3.
Proof.
  intros w w'. split; [vm_compute; reflexivity |]. split; [vm_compute; reflexivity |].
  exact (proj1 (delete_task_removes_only_target offline w
                  (tap 7 9 (TaskCB DELETE_TASK 3)) 3 eq_refl)).
Defined.

(** ** The settings panel *)

(** The settings callback never changes the store or any chat's
    conversation state. On a panel message the platform still hands out it
    edits that message into the management menu of the category and, if
    the edit went through, acknowledges the tap. On a panel message that
    is no longer accessible the handler fails on the missing [edit_text]
    before any platform call: nothing is sent and the tap is not
    acknowledged. *)
Theorem category_settings_is_passive net w q id :
  q_data q = CategoryCB SETTINGS id →
  let w' := step net w (UCallback q) in
  w_db w' = w_db w
  ∧ (∀ k, ctx_of w' k = ctx_of w k)
  ∧ log_of net w (UCallback q)
    = (if q_accessible q
       then (EditMessageText (q_chat q) (q_msg_id q) (py "Control Panel:")
               (KeyboardFactory.category_mgmt_menu id), net 0%nat)
            :: (if net 0%nat then [(AnswerCallback None false, net 1%nat)] else [])
       else [])
  ∧ outcome_of net w (UCallback q)
    = (if q_accessible q
       then (if net 0%nat && net 1%nat then Returned () else Raised TransportError)
       else Raised AttributeError).
Proof.
  intros Hq w'.
  assert (Hr : ∀ st, route st (UCallback q) = Some (I_category_settings q id)).
  { intros st. simpl. unfold route_callback. by rewrite Hq. }
  split_and!.
  - subst w'. rewrite step_db, Hr. simpl. unfold category_settings. unfold_M.
    by ask_net net.
  - intros k. subst w'. rewrite ctx_of_step, Hr.
    destruct (decide _) as [->|]; [| done]. simpl.
    unfold category_settings. unfold_M. by ask_net net.
  - rewrite (log_of_run net w _ _ (Hr _)). simpl.
    unfold category_settings. unfold_M. by ask_net net.
  - rewrite (outcome_of_run net w _ _ (Hr _)). simpl.
    unfold category_settings. unfold_M. by ask_net net.
Qed.

Lemma category_settings_is_passive_witness :
  let q := tap 7 9 (CategoryCB SETTINGS 2) in
  let q' := old_tap 7 9 (CategoryCB SETTINGS 2) in
  (w_db (step offline rename_world (UCallback q)) = w_db rename_world
   ∧ length (log_of offline rename_world (UCallback q)) = 1%nat)
  ∧ (log_of all_ok rename_world (UCallback q') = []
     ∧ outcome_of all_ok rename_world (UCallback q') = Raised AttributeError).
Proof.
  intros q q'. split.
  - destruct (category_settings_is_passive offline rename_world q 2 eq_refl)
      as (Hdb & _ & Hlog & _).
    split; [exact Hdb |]. rewrite Hlog. reflexivity.
  - destruct (category_settings_is_passive all_ok rename_world q' 2 eq_refl)
      as (_ & _ & Hlog & Hout).
    split; [rewrite Hlog | rewrite Hout]; reflexivity.
Defined.

(** ** Looking a category up by name *)

Section lookup.
Implicit Types (s : Store) (n : list Z) (i : Z).

Lemma select_category_id_Some n s i :
  select_category_id n s = Some i →
  ∃ c, c ∈ categories s ∧ c_name c = Some n ∧ c_id c = i.
Proof.
  unfold select_category_id.
  destruct (filter _ (categories s)) as [|c l] eqn:Hf; simpl; [done |].
  intros [= <-]. exists c.
  assert (Hc : c ∈ filter (λ c0, c_name c0 = Some n) (categories s))
    by (rewrite Hf; constructor).
  apply list_elem_of_filter in Hc as [? ?]. done.
Qed.

Lemma select_category_id_None n s :
  select_category_id n s = None ↔ ∀ c, c ∈ categories s → c_name c ≠ Some n.
Proof.
  unfold select_category_id.
  destruct (filter _ (categories s)) as [|c l] eqn:Hf; simpl; split; try done.
  - intros _ c Hc Hn. eapply elem_of_nil. rewrite <- Hf.
    apply list_elem_of_filter. eauto.
  - intros H. exfalso.
    assert (Hc : c ∈ filter (λ c0, c_name c0 = Some n) (categories s))
      by (rewrite Hf; constructor).
    apply list_elem_of_filter in Hc as [? ?]. by eapply H.
Qed.

Lemma select_category_id_unique n s i :
  (∃ c, c ∈ categories s ∧ c_name c = Some n) →
  (∀ c, c ∈ categories s → c_name c = Some n → c_id c = i) →
  select_category_id n s = Some i.
Proof.
  intros (c & Hc & Hn) Hall.
  destruct (select_category_id n s) as [j|] eqn:Hsel.
  - apply select_category_id_Some in Hsel as (c' & Hc' & Hn' & <-).
    f_equal. auto.
  - exfalso. rewrite select_category_id_None in Hsel. by eapply Hsel.
Qed.

Lemma filter_all {A} (P : A → Prop) `{∀ x, Decision (P x)} (l : list A) :
  Forall P l → filter P l = l.
Proof.
  induction 1 as [|x l Hx _ IH]; [done |]. by rewrite filter_cons_True, IH.
Qed.

Lemma filter_none {A} (P : A → Prop) `{∀ x, Decision (P x)} (l : list A) :
  Forall (λ x, ¬ P x) l → filter P l = [].
Proof.
  induction 1 as [|x l Hx _ IH]; [done |]. by rewrite filter_cons_False.
Qed.

Lemma filter_fresh_row cs (c : Category) :
  Forall (λ c0, c_id c0 < c_id c) cs →
  filter (λ c0, c_id c0 ≠ c_id c) (cs ++ [c]) = cs.
Proof.
  intros Hall. rewrite filter_app, filter_cons, decide_False by (intros H; by apply H).
  rewrite filter_nil, app_nil_r. apply filter_all.
  eapply Forall_impl; [exact Hall |]. simpl. intros; lia.
Qed.

Lemma category_ids_below_next cs :
  Forall (λ c, c_id c < next_rowid (c_id <$> cs)) cs.
Proof.
  pose proof (next_rowid_fresh (c_id <$> cs)) as H. by rewrite Forall_fmap in H.
Qed.

Lemma insert_new_category n s :
  name_held n (categories s) = false →
  insert_or_ignore_category (Some n) s
  = {| categories := categories s ++
         [{| c_id := next_rowid (c_id <$> categories s); c_name := Some n |}];
       tasks := tasks s |}.
Proof. intros H. unfold insert_or_ignore_category. by rewrite H. Qed.

Lemma select_new_category n s :
  name_held n (categories s) = false →
  select_category_id n (insert_or_ignore_category (Some n) s)
  = Some (next_rowid (c_id <$> categories s)).
Proof.
  intros H. rewrite (insert_new_category n s H).
  apply not_true_iff_false in H. rewrite name_held_spec in H.
  unfold select_category_id. simpl. rewrite filter_app.
  rewrite (filter_none _ (categories s)).
  - rewrite filter_cons, decide_True by done. done.
  - apply Forall_forall. intros c Hc Hn. apply H. eauto.
Qed.

End lookup.

(** After [save_category] has run on a text, looking that text up (as the
    open-category handler does) finds a category. If the text was already
    held the store is unchanged and the id is the old one; otherwise one
    row was appended, with an id above every id in use. *)
Theorem created_category_can_be_found n m net h :
  m_text m = Some n →
  let db := h_db h in
  let db' := h_db (save_category m net h).2 in
  ∃ i,
    select_category_id n db' = Some i
    ∧ if name_held n (categories db)
      then db' = db ∧ select_category_id n db = Some i
      else categories db' = categories db ++ [{| c_id := i; c_name := Some n |}]
           ∧ Forall (λ c, c_id c < i) (categories db)
           ∧ tasks db' = tasks db.
Proof.
  intros Hn db db'. subst db db'. rewrite save_category_db, Hn.
  destruct (name_held n (categories (h_db h))) eqn:Hheld.
  - assert (Hsame : insert_or_ignore_category (Some n) (h_db h) = h_db h).
    { unfold insert_or_ignore_category. by rewrite Hheld. }
    rewrite Hsame. apply name_held_spec in Hheld as (c & Hc & Hname).
    destruct (select_category_id n (h_db h)) as [i|] eqn:Hsel; [by eauto |].
    exfalso. rewrite select_category_id_None in Hsel. by eapply Hsel.
  - exists (next_rowid (c_id <$> categories (h_db h))).
    split; [by apply select_new_category |].
    rewrite (insert_new_category n _ Hheld). simpl.
    split_and!; [done | apply category_ids_below_next | done].
Qed.

Lemma created_category_can_be_found_witness :
  ∃ i, select_category_id (py "Garden")
         (h_db (save_category (text_message 7 8 (py "Garden")) offline rename_state).2)
       = Some i.
Proof.
  destruct (created_category_can_be_found (py "Garden")
              (text_message 7 8 (py "Garden")) offline rename_state eq_refl)
    as (i & Hi & _).
  exists i. exact Hi.
Defined.

(** Category ids are reused. When a category is created, then deleted, and
    another category is created next, the new category gets the id the
    deleted one had, so anything that still holds the old id (a settings
    panel, an id in scratch) now addresses the new category. *)
Theorem deleted_category_id_is_reused n1 n2 m1 m2 q net1 net2 net3 h :
  m_text m1 = Some n1 → m_text m2 = Some n2 →
  name_held n1 (categories (h_db h)) = false →
  name_held n2 (categories (h_db h)) = false →
  let i := next_rowid (c_id <$> categories (h_db h)) in
  let h1 := (save_category m1 net1 h).2 in
  let h2 := (delete_category q i net2 h1).2 in
  let h3 := (save_category m2 net3 h2).2 in
  select_category_id n1 (h_db h1) = Some i
  ∧ select_category_id n1 (h_db h2) = None
  ∧ select_category_id n2 (h_db h3) = Some i.
Proof.
  intros H1 H2 Hn1 Hn2 i h1 h2 h3. subst h3 h2 h1.
  rewrite !save_category_db, delete_category_db, save_category_db, H1, H2.
  assert (Hback : categories (delete_category_row i (delete_tasks_by_category i
                    (insert_or_ignore_category (Some n1) (h_db h))))
                  = categories (h_db h)).
  { rewrite (insert_new_category n1 _ Hn1). simpl.
    apply (filter_fresh_row _ {| c_id := i; c_name := Some n1 |}).
    apply category_ids_below_next. }
  split_and!.
  - by apply select_new_category.
  - apply select_category_id_None. rewrite Hback. intros c Hc Hname.
    apply not_true_iff_false in Hn1. apply Hn1, name_held_spec. eauto.
  - rewrite select_new_category; rewrite Hback; done.
Qed.

Lemma deleted_category_id_is_reused_witness :
  let m1 := text_message 7 8 (py "Garden") in
  let m2 := text_message 7 9 (py "Travel") in
  let h1 := (save_category m1 all_ok rename_state).2 in
  let h2 := (delete_category (tap 7 5 (CategoryCB DELETE_CAT 3)) 3 all_ok h1).2 in
  let h3 := (save_category m2 all_ok h2).2 in
  select_category_id (py "Garden") (h_db h1) = Some 3
  ∧ select_category_id (py "Garden") (h_db h2) = None
  ∧ select_category_id (py "Travel") (h_db h3) = Some 3.
Proof.
  exact (deleted_category_id_is_reused (py "Garden") (py "Travel")
           (text_message 7 8 (py "Garden")) (text_message 7 9 (py "Travel"))
           (tap 7 5 (CategoryCB DELETE_CAT 3)) all_ok all_ok all_ok rename_state
           eq_refl eq_refl eq_refl eq_refl).
Defined.

(** A successful rename moves the lookup: the category is found under its
    new name and no longer under the old one. *)
Theorem renamed_category_found_under_new_name m net h i old new :
  store_wf (h_db h) →
  fsm_data (h_ctx h) !! RENAME_CAT_ID = Some i →
  select_category_id old (h_db h) = Some i →
  m_text m = Some new →
  (∀ c, c ∈ categories (h_db h) → c_name c = Some new → c_id c = i) →
  let db' := h_db (save_renamed_category m net h).2 in
  select_category_id new db' = Some i
  ∧ (old ≠ new → select_category_id old db' = None).
Proof.
  intros (_ & _ & Huniq) Hi Hold Hnew Hfree db'.
  rewrite names_unique_alt in Huniq.
  apply select_category_id_Some in Hold as (c0 & Hc0 & Hn0 & Hid0).
  assert (Hclash : rename_clash (m_text m) i (categories (h_db h)) = false).
  { apply not_true_iff_false. rewrite rename_clash_spec, Hnew.
    intros (_ & _ & c & Hc & Hne & Hname). by apply Hne, Hfree. }
  destruct (save_renamed_category_applied m net h i Hi Hclash) as [_ Hdb].
  subst db'. rewrite Hdb, Hnew. split.
  - apply select_category_id_unique; simpl.
    + exists (set_name (Some new) i c0). split; [by apply list_elem_of_fmap_2 |].
      unfold set_name. by rewrite decide_True.
    + intros c' (c & -> & Hc)%list_elem_of_fmap. rewrite set_name_id.
      unfold set_name. destruct (decide (c_id c = i)); [done |]. by apply Hfree.
  - intros Hne. apply select_category_id_None. simpl.
    intros c' (c & -> & Hc)%list_elem_of_fmap. unfold set_name.
    destruct (decide (c_id c = i)) as [Hid|Hid]; simpl; [congruence |].
    intros Hname. apply Hid. rewrite <- Hid0.
    apply Huniq; [done | done | by eexists | congruence].
Qed.

Lemma renamed_category_found_under_new_name_witness :
  let db' := h_db (save_renamed_category (text_message 7 6 (py "House")) offline
                     rename_state).2 in
  select_category_id (py "Home") (h_db rename_state) = Some 2
  ∧ select_category_id (py "House") db' = Some 2
  ∧ select_category_id (py "Home") db' = None.
Proof.
  intros db'.
  assert (Hwf : store_wf (h_db rename_state)).
  { apply (bool_decide_unpack _). vm_compute. reflexivity. }
  assert (Hold : select_category_id (py "Home") (h_db rename_state) = Some 2)
    by (vm_compute; reflexivity).
  assert (Hfree : ∀ c, c ∈ categories (h_db rename_state) →
                       c_name c = Some (py "House") → c_id c = 2).
  { apply (proj1 (Forall_forall
                    (λ c, c_name c = Some (py "House") → c_id c = 2) _)).
    apply (bool_decide_unpack _). vm_compute. reflexivity. }
  destruct (renamed_category_found_under_new_name
              (text_message 7 6 (py "House")) offline rename_state 2
              (py "Home") (py "House") Hwf eq_refl Hold eq_refl Hfree) as [H1 H2].
  split; [exact Hold |]. split; [exact H1 |]. apply H2. vm_compute. discriminate.
Defined.

(** Renaming with a target that does not exist (nothing in scratch, or the
    id of a category deleted meanwhile) changes no row, yet the handler
    clears the state and reports the rename as done. *)
Theorem rename_of_missing_category_is_silent m net h :
  (∀ i, fsm_data (h_ctx h) !! RENAME_CAT_ID = Some i →
        i ∉ c_id <$> categories (h_db h)) →
  let r := save_renamed_category m net h in
  h_db r.2 = h_db h
  ∧ h_ctx r.2 = idle_ctx
  ∧ h_out r.2
    = h_out h ++
        [(SendMessage (m_chat m)
            (py "Category renamed to '" ++ fmt (m_text m) ++ py "'")
            (KeyboardFactory.main_menu (h_db h)),
          net (length (h_out h)))].
Proof.
  intros Hmiss r. subst r.
  assert (Hupd : update_category_name (m_text m)
                   (fsm_data (h_ctx h) !! RENAME_CAT_ID) (h_db h) = inr (h_db h)).
  { unfold update_category_name.
    destruct (fsm_data (h_ctx h) !! RENAME_CAT_ID) as [i|] eqn:Hi; [| done].
    specialize (Hmiss i eq_refl).
    destruct (rename_clash _ _ _) eqn:Hclash.
    - apply rename_clash_spec in Hclash as (_ & Hin & _). done.
    - f_equal. destruct (h_db h) as [cs ts]. simpl in *. f_equal.
      rewrite <- (list_fmap_id cs) at 2. apply list_fmap_ext.
      intros k c Hc. unfold set_name. rewrite decide_False; [done |].
      intros Hid. apply Hmiss. subst i.
      apply list_elem_of_fmap_2. by eapply list_elem_of_lookup_2. }
  unfold save_renamed_category. unfold_M. rewrite Hupd. simpl.
  by ask_net net.
Qed.

Lemma rename_of_missing_category_is_silent_witness :
  let h := {| h_ctx := {| fsm_state := Some waiting_rename_category;
                          fsm_data := {[RENAME_CAT_ID := 9]} |};
              h_db := w_db rename_world; h_out := [] |} in
  let r := save_renamed_category (text_message 7 6 (py "House")) all_ok h in
  h_db r.2 = h_db h ∧ h_ctx r.2 = idle_ctx ∧ r.1 = Returned ().
Proof.
  intros h r.
  assert (Hmiss : ∀ i, fsm_data (h_ctx h) !! RENAME_CAT_ID = Some i →
                       i ∉ c_id <$> categories (h_db h)).
  { intros i Hi. assert (i = 9) as -> by (vm_compute in Hi; congruence).
    apply (bool_decide_unpack _). vm_compute. reflexivity. }
  destruct (rename_of_missing_category_is_silent
              (text_message 7 6 (py "House")) all_ok h Hmiss) as (H1 & H2 & _).
  split; [exact H1 |]. split; [exact H2 |]. vm_compute. reflexivity.
Defined.

(** ** Deleting a category: what is spared *)

(** The category-delete callback removes the category with the given id
    and the tasks filed under it, and nothing else: every other category
    and every task of another category (or of none) is kept, no chat's
    conversation state changes, and a second tap changes nothing more. *)
Theorem delete_category_spares_the_rest net w q c :
  q_data q = CategoryCB DELETE_CAT c →
  let w' := step net w (UCallback q) in
  (∀ t, t ∈ tasks (w_db w') ↔ t ∈ tasks (w_db w) ∧ t_cat_id t ≠ Some c)
  ∧ (∀ x, x ∈ categories (w_db w') ↔ x ∈ categories (w_db w) ∧ c_id x ≠ c)
  ∧ (∀ k, ctx_of w' k = ctx_of w k)
  ∧ w_db (step net w' (UCallback q)) = w_db w'.
Proof.
  intros Hq w'.
  assert (Hr : ∀ st, route st (UCallback q) = Some (I_delete_category q c)).
  { intros st. simpl. unfold route_callback. by rewrite Hq. }
  assert (Hdb : ∀ w0, w_db (step net w0 (UCallback q))
                      = delete_category_row c (delete_tasks_by_category c (w_db w0))).
  { intros w0. rewrite step_db, Hr. simpl. apply delete_category_db. }
  split_and!.
  - intros t. subst w'. rewrite Hdb. simpl. rewrite list_elem_of_filter. tauto.
  - intros x. subst w'. rewrite Hdb. simpl. rewrite list_elem_of_filter. tauto.
  - intros k. subst w'. rewrite ctx_of_step, Hr.
    destruct (decide _) as [->|]; [| done]. simpl.
    unfold delete_category. unfold_M. by ask_net net.
  - rewrite Hdb. subst w'. rewrite Hdb.
    unfold delete_category_row, delete_tasks_by_category. simpl. f_equal.
    + apply list_filter_filter_l. tauto.
    + apply list_filter_filter_l. tauto.
Qed.

Lemma delete_category_spares_the_rest_witness :
  let w := session initial_world replay_session in
  let w' := step offline w (UCallback (tap 7 9 (CategoryCB DELETE_CAT 1))) in
  t_id <$> tasks (w_db w) = [1; 2; 3; 4]
  ∧ t_id <$> tasks (w_db w') = [2]
  ∧ ∀ x, x ∈ categories (w_db w') ↔ x ∈ categories (w_db w) ∧ c_id x ≠ 1.
Proof.
  intros w w'. split; [vm_compute; reflexivity |]. split; [vm_compute; reflexivity |].
  exact (proj1 (proj2 (delete_category_spares_the_rest offline w
                         (tap 7 9 (CategoryCB DELETE_CAT 1)) 1 eq_refl))).
Defined.

(** ** Opening a category: the whole exchange *)

Lemma show_category_log m net h cat :
  select_category_id (requested_name m) (h_db h) = Some cat →
  let rows := select_tasks cat (h_db h) in
  let n := (length (h_out h) + length rows)%nat in
  h_out (show_category m net h).2
  = h_out h ++ replayed (m_chat m) net (length (h_out h)) rows
    ++ (SendMessage (m_chat m) (py "Content of " ++ requested_name m ++ py ":")
          (ReplyKeyboard [[add_to_prefix ++ requested_name m; cancel_text]]), net n)
       :: (if net n
           then [(SendMessage (m_chat m) (py "Settings:")
                    (KeyboardFactory.category_settings_btn cat), net (S n))]
           else []).
Proof.
  intros Hsel rows n. unfold show_category. fold (requested_name m). unfold_M.
  rewrite Hsel.
  set (h0 := {| h_ctx := _; h_db := h_db h; h_out := h_out h |}).
  destruct (replay_spec (m_chat m) net rows 0%nat h0) as [k Hk].
  subst rows. rewrite Hk. subst h0. simpl.
  rewrite length_app, length_replayed. fold n.
  destruct (net n) eqn:Hn; simpl.
  - rewrite length_app, length_app, length_replayed. simpl.
    replace (length (h_out h) + length (select_tasks cat (h_db h)) + 1)%nat
      with (S n) by (subst n; lia).
    destruct (net (S n)); simpl; by rewrite <- !app_assoc.
  - by rewrite <- !app_assoc.
Qed.

Lemma opens_step net w m cat :
  opens w m cat →
  w_db (step net w (UMessage m)) = w_db w
  ∧ ctx_of (step net w (UMessage m)) (m_chat m, m_user m)
    = {| fsm_state := fsm_state (ctx_of w (m_chat m, m_user m));
         fsm_data := <[CURRENT_CAT_ID := cat]>
                       (fsm_data (ctx_of w (m_chat m, m_user m))) |}.
Proof.
  intros [Hr Hsel].
  set (h := {| h_ctx := ctx_of w (m_chat m, m_user m); h_db := w_db w; h_out := [] |}).
  destruct (show_category_found m net h cat Hsel) as (tail & Hh & _). split.
  - rewrite step_db. simpl key_of. rewrite Hr. simpl. apply show_category_db.
  - rewrite ctx_of_step. simpl key_of. rewrite Hr, decide_True by done.
    simpl. fold h. by rewrite Hh.
Qed.

(** Opening an existing category records its id as [current_cat_id]
    without changing the state or the store, replays its tasks, then sends
    the content header with the add-to shortcut and, only if that header
    was delivered, the settings entry bound to the category's id. Failed
    replays do not suppress the header. *)
Theorem open_category_exchange net w m cat :
  opens w m cat →
  let k := (m_chat m, m_user m) in
  let w' := step net w (UMessage m) in
  let n := length (select_tasks cat (w_db w)) in
  w_db w' = w_db w
  ∧ fsm_state (ctx_of w' k) = fsm_state (ctx_of w k)
  ∧ fsm_data (ctx_of w' k) = <[CURRENT_CAT_ID := cat]> (fsm_data (ctx_of w k))
  ∧ log_of net w (UMessage m)
    = replayed (m_chat m) net 0 (select_tasks cat (w_db w))
      ++ (SendMessage (m_chat m) (py "Content of " ++ requested_name m ++ py ":")
            (ReplyKeyboard [[add_to_prefix ++ requested_name m; cancel_text]]), net n)
         :: (if net n
             then [(SendMessage (m_chat m) (py "Settings:")
                      (KeyboardFactory.category_settings_btn cat), net (S n))]
             else []).
Proof.
  intros Ho k w' n. subst k w'.
  destruct (opens_step net w m cat Ho) as [Hdb Hctx]. destruct Ho as [Hr Hsel].
  split_and!; [done | by rewrite Hctx | by rewrite Hctx |].
  rewrite (log_of_run net w (UMessage m) _ Hr). simpl.
  set (h := {| h_ctx := _; h_db := w_db w; h_out := [] |}).
  by rewrite (show_category_log m net h cat Hsel).
Qed.

Lemma open_category_exchange_witness :
  let w := session initial_world replay_session in
  let m := text_message 7 9 (folder_prefix ++ py "Work") in
  opens w m 1
  ∧ fsm_data (ctx_of (step fails_second w (UMessage m)) (7, 7)) !! CURRENT_CAT_ID = Some 1
  ∧ length (log_of fails_second w (UMessage m)) = 5%nat.
Proof.
  intros w m.
  assert (Ho : opens w m 1) by (vm_compute; done).
  destruct (open_category_exchange fails_second w m 1 Ho) as (_ & _ & Hd & Hlog).
  split; [exact Ho |]. split.
  - change (7, 7) with (m_chat m, m_user m). rewrite Hd. apply lookup_insert_eq.
  - rewrite Hlog. vm_compute. reflexivity.
Defined.

(** A folder text that names no stored category is dropped: nothing is
    sent, the store and every chat's conversation state (the scratch value
    [current_cat_id] included) stay as they were, and the handler returns
    normally. *)
Theorem unknown_category_is_dropped net w m :
  route (fsm_state (ctx_of w (m_chat m, m_user m))) (UMessage m)
    = Some (I_show_category m) →
  select_category_id (requested_name m) (w_db w) = None →
  log_of net w (UMessage m) = []
  ∧ outcome_of net w (UMessage m) = Returned ()
  ∧ w_db (step net w (UMessage m)) = w_db w
  ∧ ∀ k, ctx_of (step net w (UMessage m)) k = ctx_of w k.
Proof.
  intros Hr Hsel.
  set (h := {| h_ctx := ctx_of w (m_chat m, m_user m); h_db := w_db w; h_out := [] |}).
  pose proof (show_category_missing m net h Hsel) as Hh.
  split_and!.
  - rewrite (log_of_run net w (UMessage m) _ Hr). simpl. fold h. by rewrite Hh.
  - rewrite (outcome_of_run net w (UMessage m) _ Hr). simpl. fold h. by rewrite Hh.
  - rewrite step_db. simpl key_of. rewrite Hr. simpl. fold h. by rewrite Hh.
  - intros k. rewrite ctx_of_step. simpl key_of. rewrite Hr.
    destruct (decide _) as [->|]; [| done]. simpl. fold h. by rewrite Hh.
Qed.

Lemma unknown_category_is_dropped_witness :
  let m := text_message 7 9 (folder_prefix ++ py "Garden") in
  log_of all_ok rename_world (UMessage m) = []
  ∧ outcome_of all_ok rename_world (UMessage m) = Returned ().
Proof.
  intros m.
  destruct (unknown_category_is_dropped all_ok rename_world m eq_refl eq_refl)
    as (H1 & H2 & _).
  split; [exact H1 | exact H2].
Defined.

(** ** Routing of the bot's own button texts *)

Section routing.
Implicit Types (m : Message) (st : option BotState).

Lemma text_is_false m t s : m_text m = Some t → t ≠ s → text_is s m = false.
Proof.
  intros Ht Hne. unfold text_is. apply bool_decide_eq_false. rewrite Ht. congruence.
Qed.

Lemma startswith_app p s : startswith p (p ++ s) = true.
Proof.
  induction p as [|a p IH]; [done |]. simpl.
  by rewrite bool_decide_eq_true_2, IH.
Qed.

Lemma idle_in_state s : in_state None s = false.
Proof. done. Qed.

Lemma route_new_category_text st m :
  m_is_start m = false → m_text m = Some new_category_text →
  route_message st m = Some (I_add_cat_init m).
Proof.
  intros Hstart Ht. unfold route_message. rewrite Hstart.
  rewrite (text_is_false m _ cancel_text Ht) by (cbv; intros [=]).
  unfold text_is at 1. by rewrite bool_decide_eq_true_2.
Qed.

Lemma route_folder_label st m name :
  m_is_start m = false → m_text m = Some (folder_label name) →
  route_message st m
  = Some (if in_state st waiting_new_category_name
          then I_save_category m else I_show_category m).
Proof.
  intros Hstart Ht. unfold route_message. rewrite Hstart.
  rewrite (text_is_false m _ cancel_text Ht) by (cbv; intros [=]).
  rewrite (text_is_false m _ new_category_text Ht) by (cbv; intros [=]).
  simpl. destruct (in_state st waiting_new_category_name); [done |].
  unfold text_startswith. rewrite Ht.
  change (folder_label name) with (folder_prefix ++ fmt name).
  by rewrite startswith_app.
Qed.

Lemma route_add_to_text st m x :
  m_is_start m = false → m_text m = Some (add_to_prefix ++ x) →
  route_message st m
  = Some match st with
         | Some waiting_new_category_name => I_save_category m
         | Some waiting_rename_category => I_save_renamed_category m
         | _ => I_add_task_init m
         end.
Proof.
  intros Hstart Ht. unfold route_message. rewrite Hstart.
  rewrite (text_is_false m _ cancel_text Ht) by (cbv; intros [=]).
  rewrite (text_is_false m _ new_category_text Ht) by (cbv; intros [=]).
  simpl. unfold text_startswith. rewrite Ht, startswith_app.
  assert (startswith folder_prefix (add_to_prefix ++ x) = false) as -> by done.
  by destruct st as [[]|].
Qed.

End routing.

(** What the dispatcher does with the texts of the reply buttons the bot
    itself shows (the message not being a start command). The new-category
    text starts a category creation in every state. A folder label opens
    the category, except while a new category name is awaited, when the
    label itself is saved as a name. An add-to text starts the content
    dialogue, except while a name is awaited (new or renamed), when it is
    taken as that name. *)
Theorem menu_texts_routing st m :
  m_is_start m = false →
  (m_text m = Some new_category_text → route_message st m = Some (I_add_cat_init m))
  ∧ (∀ name, m_text m = Some (folder_label name) →
       route_message st m
       = Some (if in_state st waiting_new_category_name
               then I_save_category m else I_show_category m))
  ∧ (∀ x, m_text m = Some (add_to_prefix ++ x) →
       route_message st m
       = Some match st with
              | Some waiting_new_category_name => I_save_category m
              | Some waiting_rename_category => I_save_renamed_category m
              | _ => I_add_task_init m
              end).
Proof.
  intros Hstart. split_and!.
  - by apply route_new_category_text.
  - intros name. by apply route_folder_label.
  - intros x. by apply route_add_to_text.
Qed.

Lemma menu_texts_routing_witness :
  let m := text_message 7 9 (folder_label (Some (py "Work"))) in
  route_message (Some waiting_new_category_name) m = Some (I_save_category m)
  ∧ route_message (Some waiting_content) m = Some (I_show_category m).
Proof.
  intros m. split.
  - exact (proj1 (proj2 (menu_texts_routing (Some waiting_new_category_name) m eq_refl))
             (Some (py "Work")) eq_refl).
  - exact (proj1 (proj2 (menu_texts_routing (Some waiting_content) m eq_refl))
             (Some (py "Work")) eq_refl).
Defined.

(** A message from a chat that is idle never changes the store, whatever
    its content: only the waiting states accept data. *)
Theorem idle_chat_messages_never_write net w m :
  fsm_state (ctx_of w (m_chat m, m_user m)) = None →
  w_db (step net w (UMessage m)) = w_db w.
Proof.
  intros Hidle. rewrite step_db. simpl key_of. simpl route. rewrite Hidle.
  unfold route_message. rewrite !idle_in_state.
  destruct (text_is cancel_text m || m_is_start m).
  { simpl. unfold cmd_start. unfold_M. by ask_net net. }
  destruct (text_is new_category_text m).
  { simpl. unfold add_cat_init. unfold_M. by ask_net net. }
  destruct (text_startswith folder_prefix m).
  { simpl. apply show_category_db. }
  destruct (text_startswith add_to_prefix m); [| done].
  simpl. unfold add_task_init. unfold_M. by ask_net net.
Qed.

Lemma idle_chat_messages_never_write_witness :
  let w := session initial_world replay_session in
  w_db (step offline w (UMessage (media_message 7 50))) = w_db w.
Proof.
  exact (idle_chat_messages_never_write offline (session initial_world replay_session)
           (media_message 7 50) eq_refl).
Defined.

(** ** Inline buttons and the callbacks they trigger *)

(** Every inline button the keyboard factory renders is accepted by the
    dispatcher and reaches the handler of its action with the id it was
    rendered for. The Back button of the control panel carries the same
    payload as the settings entry, so it renders the control panel again. *)
Theorem inline_buttons_reach_their_handler chat msg id :
  let routed kb := (λ b, route_callback (tap chat msg b.2)) <$> inline_buttons kb in
  routed (KeyboardFactory.task_inline id)
  = [Some (I_delete_task (tap chat msg (TaskCB DELETE_TASK id)) id)]
  ∧ routed (KeyboardFactory.category_settings_btn id)
    = [Some (I_category_settings (tap chat msg (CategoryCB SETTINGS id)) id)]
  ∧ routed (KeyboardFactory.category_mgmt_menu id)
    = [Some (I_rename_cat_init (tap chat msg (CategoryCB RENAME_CAT id)) id);
       Some (I_delete_category (tap chat msg (CategoryCB DELETE_CAT id)) id);
       Some (I_category_settings (tap chat msg (CategoryCB SETTINGS id)) id)]
  ∧ (inline_buttons (KeyboardFactory.category_mgmt_menu id)).*2
    = [CategoryCB RENAME_CAT id; CategoryCB DELETE_CAT id]
      ++ (inline_buttons (KeyboardFactory.category_settings_btn id)).*2.
Proof. done. Qed.

(** ** Layout of the main menu *)

Lemma adjust_go_rows {B} (size : nat) (l : list B) : ∀ room row,
  (1 ≤ size)%nat → (length row + room = size)%nat → row ≠ [] ∨ l ≠ [] →
  ∃ front last,
    adjust_go size room row l = front ++ [last]
    ∧ Forall (λ r, length r = size) front
    ∧ (1 ≤ length last ≤ size)%nat.
Proof.
  induction l as [|b l IH]; intros room row Hsize Hinv Hne; simpl.
  - destruct row as [|a row]; [by destruct Hne |].
    exists [], (rev (a :: row)). split_and!; [done | constructor | |];
      rewrite length_rev; simpl in *; lia.
  - destruct room as [|room].
    + destruct (IH (size - 1)%nat [b]) as (front & last & -> & Hf & Hl);
        [done | simpl; lia | by left |].
      exists (rev row :: front), last. split_and!; [done | | lia | lia].
      constructor; [| done]. rewrite length_rev. lia.
    + destruct (IH room (b :: row)) as (front & last & -> & Hf & Hl);
        [done | simpl; lia | by left |].
      by exists front, last.
Qed.

(** The main menu has one folder button per stored category, in the order
    of the category list, followed by the new-category button; they are
    laid out in rows of exactly two, the last row holding one or two. *)
Theorem main_menu_layout db :
  let rows := reply_rows (KeyboardFactory.main_menu db) in
  concat rows = (folder_label <$> select_category_names db) ++ [new_category_text]
  ∧ ∃ front last,
      rows = front ++ [last]
      ∧ Forall (λ r, length r = 2%nat) front
      ∧ (1 ≤ length last ≤ 2)%nat.
Proof.
  simpl. split; [apply concat_adjust |].
  apply adjust_go_rows; [lia | done |]. right. by destruct (_ <$> _).
Qed.

(** ** One store for all chats *)

Lemma cmd_start_log m net h :
  h_out (cmd_start m net h).2
  = h_out h ++ [(SendMessage (m_chat m) (py "Main Menu:")
                   (KeyboardFactory.main_menu (h_db h)), net (length (h_out h)))].
Proof. unfold cmd_start. unfold_M. by ask_net net. Qed.

(** Categories belong to no chat: once some chat has created a category,
    the main menu rendered for any chat (the same or another one) shows
    its folder button. *)
Theorem categories_are_shared_between_chats netA netB w mA mB n :
  route (fsm_state (ctx_of w (m_chat mA, m_user mA))) (UMessage mA)
    = Some (I_save_category mA) →
  m_text mA = Some n →
  m_text mB = Some cancel_text ∨ m_is_start mB = true →
  ∃ kb,
    log_of netB (step netA w (UMessage mA)) (UMessage mB)
    = [(SendMessage (m_chat mB) (py "Main Menu:") kb, netB 0%nat)]
    ∧ folder_label (Some n) ∈ reply_buttons kb.
Proof.
  intros HrA Hn HB.
  set (w1 := step netA w (UMessage mA)).
  exists (KeyboardFactory.main_menu (w_db w1)). split.
  - assert (HrB : route (fsm_state (ctx_of w1 (key_of (UMessage mB)))) (UMessage mB)
                  = Some (I_cmd_start mB)) by by apply reset_routes.
    rewrite (log_of_run netB w1 _ _ HrB). apply (cmd_start_log mB netB).
  - rewrite main_menu_buttons. apply elem_of_app. left.
    apply list_elem_of_fmap_2. unfold select_category_names.
    assert (Hdb : w_db w1 = insert_or_ignore_category (Some n) (w_db w)).
    { subst w1. rewrite step_db. simpl key_of. rewrite HrA, <- Hn.
      apply save_category_db. }
    pose proof (insert_or_ignore_category_held n (w_db w)) as Hheld.
    rewrite <- Hdb in Hheld. apply name_held_spec in Hheld as (c & Hc & <-).
    by apply list_elem_of_fmap_2.
Qed.

Lemma categories_are_shared_between_chats_witness :
  let w := step all_ok initial_world (UMessage (text_message 7 1 new_category_text)) in
  let mA := text_message 7 2 (py "Work") in
  let mB := text_message 8 1 cancel_text in
  ∃ kb,
    log_of offline (step offline w (UMessage mA)) (UMessage mB)
    = [(SendMessage 8 (py "Main Menu:") kb, false)]
    ∧ folder_label (Some (py "Work")) ∈ reply_buttons kb.
Proof.
  intros w mA mB.
  exact (categories_are_shared_between_chats offline offline w mA mB (py "Work")
           eq_refl eq_refl (or_introl eq_refl)).
Defined.

(** ** The rename dialogue always has its target *)

Section rename_target.

Lemma idle_rename_target_known : rename_target_known idle_ctx.
Proof. by intros H. Qed.

Lemma run_keeps_rename_target i net h :
  rename_target_known (h_ctx h) → rename_target_known (h_ctx (run i net h).2).
Proof.
  intros Hk.
  assert (Hcur : ∀ cat, rename_target_known
            {| fsm_state := fsm_state (h_ctx h);
               fsm_data := <[CURRENT_CAT_ID := cat]> (fsm_data (h_ctx h)) |}).
  { intros cat Hst. simpl in *. rewrite lookup_insert_ne by done. by apply Hk. }
  assert (Hren : ∀ st id, rename_target_known
            {| fsm_state := st;
               fsm_data := <[RENAME_CAT_ID := id]> (fsm_data (h_ctx h)) |}).
  { intros st id _. simpl. rewrite lookup_insert_eq. by eexists. }
  assert (Hother : ∀ s d, s ≠ waiting_rename_category →
            rename_target_known {| fsm_state := Some s; fsm_data := d |}).
  { intros s d Hs [= ?]. done. }
  destruct i; simpl.
  - unfold cmd_start. unfold_M. ask_net net; apply idle_rename_target_known.
  - unfold add_cat_init. unfold_M. ask_net net; [by apply Hother | done].
  - unfold save_category. unfold_M. ask_net net; apply idle_rename_target_known.
  - destruct (select_category_id (requested_name m) (h_db h)) as [cat|] eqn:Hsel.
    + destruct (show_category_found m net h cat Hsel) as (tail & -> & _). apply Hcur.
    + by rewrite show_category_missing.
  - unfold category_settings. unfold_M. by ask_net net.
  - unfold rename_cat_init. unfold_M. ask_net net; apply Hren.
  - unfold save_renamed_category. unfold_M.
    destruct (update_category_name _ _ _); simpl; [done |].
    ask_net net; apply idle_rename_target_known.
  - unfold add_task_init. unfold_M. ask_net net; [by apply Hother | done].
  - unfold save_task. unfold_M. ask_net net; apply idle_rename_target_known.
  - unfold delete_task. unfold_M. by ask_net net.
  - unfold delete_category. unfold_M. by ask_net net.
Qed.

Lemma step_keeps_rename_target net w u :
  (∀ k, rename_target_known (ctx_of w k)) →
  ∀ k, rename_target_known (ctx_of (step net w u) k).
Proof.
  intros Hall k. rewrite ctx_of_step. destruct (route _ u); [| by apply Hall].
  destruct (decide _); [| by apply Hall]. apply run_keeps_rename_target, Hall.
Qed.

End rename_target.

(** In every state the bot can reach from a fresh database, a chat that is
    waiting for the new name of a category has a [rename_cat_id] in its
    scratch data; transport failures included. (The content state has no
    such guarantee for [current_cat_id].) *)
Theorem waiting_rename_has_target us k :
  rename_target_known (ctx_of (session initial_world us) k).
Proof.
  assert (Hgen : ∀ w, (∀ k, rename_target_known (ctx_of w k)) →
                      ∀ k, rename_target_known (ctx_of (session w us) k)).
  { induction us as [|[net u] us IH]; intros w Hw; simpl; [done |].
    apply IH. by apply step_keeps_rename_target. }
  apply Hgen. intros k'. apply idle_rename_target_known.
Qed.

(** ** Filing content under a category *)

Section add_flow.

Lemma plain_content_routes m :
  plain_content m → route_message (Some waiting_content) m = Some (I_save_task m).
Proof.
  intros (Hs & Hc & Hn & Hf & Ha). unfold route_message.
  by rewrite Hs, Hc, Hn, Hf, Ha.
Qed.

End add_flow.

(** The add flow end to end. An idle chat opens category [cat], sends the
    add-to text (whose prompt is delivered) and then a message none of the
    text filters accepts. The message is stored as one new task of [cat]:
    it comes last when [cat] is opened again, all other rows are as
    before, and the chat is idle again. Transport failures other than the
    prompt's do not matter. *)
Theorem add_flow_files_under_opened_category net1 net2 net3 w m1 m2 m3 cat x :
  fsm_state (ctx_of w (m_chat m1, m_user m1)) = None →
  opens w m1 cat →
  (m_chat m2, m_user m2) = (m_chat m1, m_user m1) →
  (m_chat m3, m_user m3) = (m_chat m1, m_user m1) →
  m_text m2 = Some (add_to_prefix ++ x) → m_is_start m2 = false →
  net2 0%nat = true →
  plain_content m3 →
  let w3 := step net3 (step net2 (step net1 w (UMessage m1)) (UMessage m2)) (UMessage m3) in
  let t := {| t_id := next_rowid (t_id <$> tasks (w_db w)); t_cat_id := Some cat;
              t_chat_id := m_chat m3; t_msg_id := m_id m3;
              t_preview := preview_of m3 |} in
  tasks (w_db w3) = tasks (w_db w) ++ [t]
  ∧ select_tasks cat (w_db w3) = select_tasks cat (w_db w) ++ [t]
  ∧ categories (w_db w3) = categories (w_db w)
  ∧ ctx_of w3 (m_chat m1, m_user m1) = idle_ctx.
Proof.
  intros Hidle Ho Hk2 Hk3 Ht2 Hs2 Hnet Hplain w3 t.
  set (k := (m_chat m1, m_user m1)) in *.
  set (w1 := step net1 w (UMessage m1)).
  set (w2 := step net2 w1 (UMessage m2)).
  destruct (opens_step net1 w m1 cat Ho) as [Hdb1 Hctx1].
  fold k w1 in Hdb1, Hctx1. rewrite Hidle in Hctx1.
  assert (Hr2 : route (fsm_state (ctx_of w1 (key_of (UMessage m2)))) (UMessage m2)
                = Some (I_add_task_init m2)).
  { simpl key_of. rewrite Hk2. fold k. rewrite Hctx1. simpl.
    by rewrite (route_add_to_text None m2 x Hs2 Ht2). }
  assert (Hdb2 : w_db w2 = w_db w1).
  { subst w2. rewrite step_db, Hr2. simpl. unfold add_task_init. unfold_M.
    by ask_net net2. }
  assert (Hctx2 : ctx_of w2 k
                  = {| fsm_state := Some waiting_content;
                       fsm_data := fsm_data (ctx_of w1 k) |}).
  { subst w2. rewrite ctx_of_step, Hr2. simpl key_of. rewrite Hk2. fold k.
    rewrite decide_True by done. simpl. unfold add_task_init. unfold_M.
    by rewrite Hnet. }
  assert (Hr3 : route (fsm_state (ctx_of w2 (key_of (UMessage m3)))) (UMessage m3)
                = Some (I_save_task m3)).
  { simpl key_of. rewrite Hk3. fold k. rewrite Hctx2. simpl.
    by apply plain_content_routes. }
  assert (Hdb3 : w_db w3 = insert_task (Some cat) (m_chat m3) (m_id m3)
                             (preview_of m3) (w_db w)).
  { subst w3. fold w1 w2. rewrite step_db, Hr3. simpl key_of. rewrite Hk3. fold k.
    rewrite Hctx2, Hdb2, Hdb1. simpl. unfold save_task. unfold_M.
    rewrite Hctx1. simpl. rewrite lookup_insert_eq. by ask_net net3. }
  split_and!.
  - by rewrite Hdb3.
  - rewrite Hdb3. unfold select_tasks. simpl. rewrite filter_app. f_equal.
    by rewrite filter_cons_True.
  - by rewrite Hdb3.
  - subst w3. fold w1 w2. rewrite ctx_of_step, Hr3. simpl key_of. rewrite Hk3. fold k.
    rewrite decide_True by done. simpl. unfold save_task. unfold_M. by ask_net net3.
Qed.

Lemma add_flow_files_under_opened_category_witness :
  let w := session initial_world replay_session in
  let m1 := text_message 7 60 (folder_prefix ++ py "Home") in
  let m2 := text_message 7 61 (add_to_prefix ++ py "Home") in
  let m3 := media_message 7 62 in
  let w3 := step offline (step all_ok (step offline w (UMessage m1)) (UMessage m2))
              (UMessage m3) in
  (opens w m1 2 ∧ plain_content m3)
  ∧ t_id <$> select_tasks 2 (w_db w) = [2]
  ∧ t_id <$> select_tasks 2 (w_db w3) = [2; 5].
Proof.
  intros w m1 m2 m3 w3.
  assert (Ho : opens w m1 2) by (vm_compute; done).
  assert (Hp : plain_content m3) by (vm_compute; done).
  split; [exact (conj Ho Hp) |]. split; [vm_compute; reflexivity |].
  destruct (add_flow_files_under_opened_category offline all_ok offline w m1 m2 m3 2
              (py "Home") eq_refl Ho eq_refl eq_refl eq_refl eq_refl eq_refl Hp)
    as (_ & Hsel & _).
  subst w3. rewrite Hsel. vm_compute. reflexivity.
Defined.

(** ** Starting a rename *)

(** The rename callback always records the category id as [rename_cat_id]
    (other scratch values are kept) and never touches the store; the chat
    enters the rename state exactly when the prompt is delivered, so after
    a failed prompt the id is recorded while the state is the old one. *)
Theorem rename_cat_init_records_target net w q id :
  q_data q = CategoryCB RENAME_CAT id →
  let k := (q_chat q, q_user q) in
  let w' := step net w (UCallback q) in
  fsm_data (ctx_of w' k) = <[RENAME_CAT_ID := id]> (fsm_data (ctx_of w k))
  ∧ fsm_state (ctx_of w' k)
    = (if net 0%nat then Some waiting_rename_category else fsm_state (ctx_of w k))
  ∧ w_db w' = w_db w.
Proof.
  intros Hq k w'. subst k w'.
  assert (Hr : ∀ st, route st (UCallback q) = Some (I_rename_cat_init q id)).
  { intros st. simpl. unfold route_callback. by rewrite Hq. }
  rewrite ctx_of_step, step_db, Hr. simpl key_of. rewrite decide_True by done.
  simpl. unfold rename_cat_init. unfold_M. by ask_net net.
Qed.

Lemma rename_cat_init_records_target_witness :
  let w := session initial_world replay_session in
  let w' := step offline w (UCallback (tap 7 9 (CategoryCB RENAME_CAT 2))) in
  fsm_data (ctx_of w' (7, 7)) !! RENAME_CAT_ID = Some 2
  ∧ fsm_state (ctx_of w' (7, 7)) = None.
Proof.
  intros w w'.
  destruct (rename_cat_init_records_target offline w
              (tap 7 9 (CategoryCB RENAME_CAT 2)) 2 eq_refl) as (Hd & Hs & _).
  subst w'. simpl q_chat in *. simpl q_user in *. split.
  - rewrite Hd. apply lookup_insert_eq.
  - rewrite Hs. vm_compute. reflexivity.
Defined.

(** ** Category names without text *)

(** A message without text (a photo, say) that arrives while a category
    name is awaited is stored as a category whose name is NULL, and the
    UNIQUE column does not coalesce such rows: every such message adds one
    more category, shown in the main menu as the folder glyph followed by
    the word None. *)
Theorem textless_names_accumulate m1 m2 net1 net2 h :
  m_text m1 = None → m_text m2 = None →
  let db := h_db h in
  let db2 := h_db (save_category m2 net2 (save_category m1 net1 h).2).2 in
  ∃ i1 i2,
    categories db2
    = categories db ++ [{| c_id := i1; c_name := None |};
                        {| c_id := i2; c_name := None |}]
    ∧ Forall (λ c, c_id c < i1) (categories db) ∧ i1 < i2
    ∧ reply_buttons (KeyboardFactory.main_menu db2)
      = (folder_label <$> select_category_names db)
        ++ [glyph_folder :: py " None"; glyph_folder :: py " None"; new_category_text].
Proof.
  intros H1 H2 db db2. subst db db2. rewrite !save_category_db, H1, H2.
  set (cs := categories (h_db h)).
  set (i1 := next_rowid (c_id <$> cs)).
  set (i2 := next_rowid (c_id <$> (cs ++ [{| c_id := i1; c_name := None |}]))).
  assert (Hcats : categories (insert_or_ignore_category None
                                (insert_or_ignore_category None (h_db h)))
                  = cs ++ [{| c_id := i1; c_name := None |};
                           {| c_id := i2; c_name := None |}]).
  { unfold insert_or_ignore_category. simpl. by rewrite <- app_assoc. }
  exists i1, i2. split_and!.
  - done.
  - apply category_ids_below_next.
  - pose proof (category_ids_below_next (cs ++ [{| c_id := i1; c_name := None |}])) as H.
    rewrite Forall_app, Forall_singleton in H. apply H.
  - rewrite main_menu_buttons. unfold select_category_names. rewrite Hcats.
    rewrite !fmap_app, <- !app_assoc. done.
Qed.

Lemma textless_names_accumulate_witness :
  let db2 := h_db (save_category (media_message 7 9) offline
                     (save_category (media_message 7 8) all_ok rename_state).2).2 in
  c_id <$> categories db2 = [1; 2; 3; 4]
  ∧ ∃ i1 i2,
      categories db2
      = categories (h_db rename_state) ++ [{| c_id := i1; c_name := None |};
                                           {| c_id := i2; c_name := None |}]
      ∧ Forall (λ c, c_id c < i1) (categories (h_db rename_state)) ∧ i1 < i2
      ∧ reply_buttons (KeyboardFactory.main_menu db2)
        = (folder_label <$> select_category_names (h_db rename_state))
          ++ [glyph_folder :: py " None"; glyph_folder :: py " None";
              new_category_text].
Proof.
  intros db2. split; [vm_compute; reflexivity |].
  exact (textless_names_accumulate (media_message 7 8) (media_message 7 9)
           all_ok offline rename_state eq_refl eq_refl).
Defined.
